(** * ExtensionRunner: the supervisor of extension subprocesses

    A shallow embedding of [ulauncher/modes/extensions/ExtensionRunner.py].
    The runner owns a table of running extension processes, spawns a child
    per extension, listens to its standard error and to its exit, classifies
    why it stopped and writes that diagnosis to the extension database.

    The Python methods mutate [self.extension_procs] and the module-level
    [ext_db], call out to GLib/Gio, and may raise.  They are embedded as
    computations in a state-and-exception monad over [State]; everything the
    methods observe from outside (the clock, the manifest on disk, what the
    operating system answers) is passed in as a [World]. *)

From Stdlib Require Import ZArith List Ascii String.
From Stdlib Require Import PrimFloat FloatAxioms SpecFloat.
From stdpp Require Import base option list strings pretty gmap.

Local Open Scope string_scope.
Local Open Scope Z_scope.

(** ** Python strings

    [str] values are modelled as byte strings (UTF-8).  The characters the
    runner searches for, the single quote and the newline, are ASCII and never
    occur inside a multi-byte sequence, so splitting and searching by byte
    agrees with Python's code-point semantics. *)

Module Py.

(** [needle in hay] *)
Fixpoint contains (needle hay : string) : bool :=
  if String.prefix needle hay then true
  else match hay with
       | EmptyString => false
       | String _ rest => contains needle rest
       end.

(** [s.split(sep)] for a one-character separator: the pieces between
    successive occurrences, always at least one piece. *)
Fixpoint split (sep : ascii) (s : string) : list string :=
  match s with
  | EmptyString => [EmptyString]
  | String c rest =>
      if Ascii.eqb c sep then EmptyString :: split sep rest
      else match split sep rest with
           | piece :: pieces => String c piece :: pieces
           | [] => [String c EmptyString]
           end
  end.

(** [sep.join(parts)] *)
Fixpoint join (sep : string) (parts : list string) : string :=
  match parts with
  | [] => EmptyString
  | [p] => p
  | p :: ps => p ++ sep ++ join sep ps
  end.

(** Truth value of a string: empty is false. *)
Definition truthy (s : string) : bool :=
  match s with EmptyString => false | _ => true end.

(** Truth value of [Optional[str]]: [None] and the empty string are false. *)
Definition truthy_opt (o : option string) : bool :=
  match o with Some s => truthy s | None => false end.

(** [str(n)] for an [int]. *)
Definition str_int (n : Z) : string := pretty n.

(** [str(int(b))] for a [bool]. *)
Definition str_int_bool (b : bool) : string := if b then "1" else "0".

(** A [dict] with string keys, in insertion order. *)
Definition dict (V : Type) : Type := list (string * V).

(** [d[k] = v]: overwrite in place or append. *)
Fixpoint dict_set {V} (k : string) (v : V) (d : dict V) : dict V :=
  match d with
  | [] => [(k, v)]
  | (k', v') :: d' =>
      if String.eqb k k' then (k, v) :: d' else (k', v') :: dict_set k v d'
  end.

(** [{**d1, **d2}] *)
Definition dict_merge {V} (d1 d2 : dict V) : dict V :=
  fold_left (fun acc kv => dict_set (fst kv) (snd kv) acc) d2 d1.

(** [collections.deque(maxlen=n)]: appending to a full deque discards from
    the left. *)
Record deque : Type := mk_deque { maxlen : nat; items : list string }.

Definition deque_new (n : nat) : deque := mk_deque n [].

Definition deque_append (d : deque) (x : string) : deque :=
  let l := (items d ++ [x])%list in
  mk_deque (maxlen d) (drop (length l - maxlen d)%nat l).

(** Exceptions the runner can let escape.  The last two are the manifest's
    exception classes, when nothing catches them. *)
Inductive exn : Type :=
| AssertionError (msg : string)
| IndexError (msg : string)
| GLibError (msg : string)
| ExtensionManifestError (msg : string)
| ExtensionIncompatibleWarning (msg : string).

End Py.

(** ** Objects owned by GLib and the operating system *)

(** Identity of a Python object ([id(obj)]): two references denote the same
    [Gio.Subprocess] exactly when their identities are equal. *)
Definition obj_id : Type := positive.

Definition SIGKILL : Z := 9.
Definition SIGTERM : Z := 15.

(** What the operating system knows about a child process. *)
Inductive ProcStatus : Type :=
| Alive (pid : positive)
| ExitedWith (code : Z)
| KilledBy (sig : Z).

Module Subprocess.

(** [Gio.Subprocess.get_if_signaled] *)
Definition get_if_signaled (s : ProcStatus) : bool :=
  match s with KilledBy _ => true | _ => false end.

(** [Gio.Subprocess.get_term_sig]; only meaningful for a signaled child. *)
Definition get_term_sig (s : ProcStatus) : Z :=
  match s with KilledBy sig => sig | _ => 0 end.

(** [Gio.Subprocess.get_exit_status]; only meaningful for a child that
    exited, GLib answers 1 when that precondition fails. *)
Definition get_exit_status (s : ProcStatus) : Z :=
  match s with ExitedWith code => code | _ => 1 end.

(** [Gio.Subprocess.get_identifier]: the pid as a string, [None] once the
    child has terminated. *)
Definition get_identifier (s : ProcStatus) : option string :=
  match s with Alive pid => Some (pretty pid) | _ => None end.

End Subprocess.

(** [Gio.DataInputStream.new(base)]: a line reader over a pipe. *)
Record DataInputStream : Type := DataInputStream_new { base_stream : obj_id }.

(** What [launcher.spawnv(cmd)] hands back: it raises [GLib.Error] when the
    child cannot be started, and otherwise returns the subprocess object,
    whose [get_stderr_pipe()] is [None] unless a pipe was requested. *)
Inductive SpawnResult : Type :=
| SpawnFailed (msg : string)
| Spawned (subproc : obj_id) (stderr_pipe : option obj_id).

(** ** The extension manifest *)

(** [ValueType = Union[str, int]], with [bool] a subclass of [int]. *)
Inductive ValueType : Type :=
| VStr (s : string)
| VInt (n : Z)
| VBool (b : bool).

Inductive ManifestExn : Type :=
| ExtensionManifestError (msg : string)
| ExtensionIncompatibleWarning (msg : string).

Record Trigger : Type := { keyword : string }.

(** Modelled from the spec: the Manifest Provider ([ExtensionManifest], whose
    source is not part of this development).  Its contract is
    [load(path) -> Manifest | raises {ValidationError, CompatibilityWarning}],
    [validate()], [checkCompatibility(verbose)], both of which return normally
    or raise a typed failure, a [triggers] map from id to keyword, and a
    method producing the key-value preference snapshot of an extension id. *)
Record ExtensionManifest : Type := {
  validate : option ManifestExn;
  check_compatibility : bool -> option ManifestExn;
  triggers : Py.dict Trigger;
  get_key_value_user_preferences : string -> Py.dict ValueType;
}.

(** Modelled from the spec: what [ExtensionManifest.load(path)] does, it
    returns the manifest or raises one of the two typed failures. *)
Inductive LoadResult : Type :=
| Loaded (manifest : ExtensionManifest)
| LoadRaised (e : ManifestExn).

(** A manifest exception that nothing caught, as it leaves the runner. *)
Definition uncaught (e : ManifestExn) : Py.exn :=
  match e with
  | ExtensionManifestError msg => Py.ExtensionManifestError msg
  | ExtensionIncompatibleWarning msg => Py.ExtensionIncompatibleWarning msg
  end.

(** ** The extension database (the Error Store) *)

(** [ExtensionRuntimeError] *)
Inductive ExtensionRuntimeError : Type :=
| Terminated
| Exited
| MissingModule
| Incompatible
| Invalid.

Definition error_type_str (e : ExtensionRuntimeError) : string :=
  match e with
  | Terminated => "Terminated"
  | Exited => "Exited"
  | MissingModule => "MissingModule"
  | Incompatible => "Incompatible"
  | Invalid => "Invalid"
  end.

(** The two fields of an extension record that the runner writes.  The empty
    [error_type] is the "no error" value the runner resets to. *)
Record ExtRecord : Type := mk_record { error_message : string; error_type : string }.

Definition empty_record : ExtRecord := mk_record "" "".

(** Modelled from the spec: the Error Store ([ExtensionDb], whose source is not
    part of this development).  [getRecord(id)] returns the record of [id],
    creating an empty one if absent; records are updated in memory; [save()]
    persists all in-memory records to durable storage synchronously.  So the
    store has two layers: [records], what the running application holds, and
    [saved], what is durable. *)
Record ExtensionDb : Type := mk_db {
  records : gmap string ExtRecord;
  saved : gmap string ExtRecord;
}.

Module Db.

(** [get_record(id)] followed by [.update(error_message=m, error_type=t)]
    on the record object it returned: the record held by the store
    changes. *)
Definition update_record (id m t : string) (db : ExtensionDb) : ExtensionDb :=
  mk_db (<[id := mk_record m t]> (records db)) (saved db).

(** [save()] *)
Definition save (db : ExtensionDb) : ExtensionDb :=
  mk_db (records db) (records db).

(** The error type persisted for [id], the empty string when there is none. *)
Definition persisted_error (id : string) (db : ExtensionDb) : string :=
  match saved db !! id with Some r => error_type r | None => "" end.

(** The error type held in memory for [id]. *)
Definition current_error (id : string) (db : ExtensionDb) : string :=
  match records db !! id with Some r => error_type r | None => "" end.

End Db.

(** ** The runner's state *)

(** [ExtensionProc], the record of one running extension. *)
Record ExtensionProc : Type := mk_proc {
  ext_id : string;
  subprocess : obj_id;
  start_time : float;
  error_stream : DataInputStream;
  recent_errors : Py.deque;
}.

(** Calls that leave the runner, and (as history) the changes to its table,
    in the order they happen. *)
Inductive Event : Type :=
| EvSpawn (cmd : list string) (env : Py.dict string) (subproc : obj_id)
| EvWaitAsync (subproc : obj_id) (ext : string)
| EvReadLineAsync (stream : DataInputStream) (ext : string)
| EvSendSignal (subproc : obj_id) (sig : Z)
| EvPrint (line : string)
| EvDbSave
| EvRegistered (ext : string)
| EvRemoved (ext : string).

(** [extension_procs] and [verbose] are the fields of the [ExtensionRunner]
    singleton, [ext_db] is the module-level database, [timers] are the
    one-shot callbacks waiting in the main loop, [trace] is the history. *)
Record State : Type := mk_state {
  extension_procs : gmap string ExtensionProc;
  verbose : bool;
  ext_db : ExtensionDb;
  timers : list (float * ExtensionProc);
  trace : list Event;
}.

(** What a method observes from outside during one call. *)
Record World : Type := {
  time : float;
  load : string -> LoadResult;
  spawnv : list string -> Py.dict string -> SpawnResult;
  os : obj_id -> ProcStatus;
}.

(** ** Field updates *)

Definition set_procs (f : gmap string ExtensionProc -> gmap string ExtensionProc)
  (st : State) : State :=
  mk_state (f (extension_procs st)) (verbose st) (ext_db st) (timers st) (trace st).

Definition set_db (f : ExtensionDb -> ExtensionDb) (st : State) : State :=
  mk_state (extension_procs st) (verbose st) (f (ext_db st)) (timers st) (trace st).

Definition set_timers (f : list (float * ExtensionProc) -> list (float * ExtensionProc))
  (st : State) : State :=
  mk_state (extension_procs st) (verbose st) (ext_db st) (f (timers st)) (trace st).

Definition log_event (e : Event) (st : State) : State :=
  mk_state (extension_procs st) (verbose st) (ext_db st) (timers st) (trace st ++ [e]).

Definition with_recent_errors (d : Py.deque) (p : ExtensionProc) : ExtensionProc :=
  mk_proc (ext_id p) (subprocess p) (start_time p) (error_stream p) d.

(** ** The monad of runner methods

    A method runs from a state, changes it, and either returns or raises.
    What was changed before an exception stays changed, as in Python. *)

Inductive Result (A : Type) : Type :=
| Ok (a : A)
| Raised (e : Py.exn).

Arguments Ok {A} a.
Arguments Raised {A} e.

Definition M (A : Type) : Type := State -> Result A * State.

Definition ret {A} (a : A) : M A := fun st => (Ok a, st).

Definition bind {A B} (c : M A) (k : A -> M B) : M B :=
  fun st =>
    match c st with
    | (Ok a, st') => k a st'
    | (Raised e, st') => (Raised e, st')
    end.

Definition raise {A} (e : Py.exn) : M A := fun st => (Raised e, st).

Definition gets {A} (f : State -> A) : M A := fun st => (Ok (f st), st).

Definition modify (f : State -> State) : M unit := fun st => (Ok tt, f st).

Declare Scope runner_scope.
Delimit Scope runner_scope with runner.

Notation "x <- c ;; k" := (bind c (fun x => k))
  (at level 100, c at next level, right associativity) : runner_scope.
Notation "c ;; k" := (bind c (fun _ => k))
  (at level 100, right associativity) : runner_scope.

Local Open Scope runner_scope.

Definition when (b : bool) (c : M unit) : M unit := if b then c else ret tt.

Definition emit (e : Event) : M unit := modify (log_event e).

(** The state a method ends in, and how it ended. *)
Definition exec {A} (c : M A) (st : State) : State := snd (c st).
Definition outcome {A} (c : M A) (st : State) : Result A := fst (c st).

(** ** The methods of [ExtensionRunner] *)

(** ASCII 34 and 39. *)
Definition dquote : string := String (ascii_of_nat 34) EmptyString.
Definition squote : ascii := ascii_of_nat 39.
Definition newline : string := String (ascii_of_nat 10) EmptyString.

(** [self.extension_procs.get(ext_id)] *)
Definition get_proc (ext : string) : M (option ExtensionProc) :=
  gets (fun st => extension_procs st !! ext).

(** [self.extension_procs.pop(ext_id, None)] *)
Definition pop_proc (ext : string) : M unit :=
  present <- gets (fun st => bool_decide (is_Some (extension_procs st !! ext))) ;;
  when present (modify (set_procs (delete ext)) ;; emit (EvRemoved ext)).

(** [self.extension_procs[ext_id] = proc] *)
Definition register_proc (ext : string) (proc : ExtensionProc) : M unit :=
  modify (set_procs (insert ext proc)) ;; emit (EvRegistered ext).

(** [is_running]: membership in the table. *)
Definition running (st : State) (ext : string) : bool :=
  bool_decide (is_Some (extension_procs st !! ext)).

Definition is_running (ext : string) : M bool := gets (fun st => running st ext).

(** [set_extension_error]: update the record, then save the database. *)
Definition set_extension_error (ext : string) (error : ExtensionRuntimeError)
  (message : string) : M unit :=
  modify (set_db (Db.update_record ext message (error_type_str error))) ;;
  modify (set_db Db.save) ;;
  emit EvDbSave.

(** [read_stderr_line]: issue one asynchronous read on the record's stream. *)
Definition read_stderr_line (proc : ExtensionProc) : M unit :=
  emit (EvReadLineAsync (error_stream proc) (ext_id proc)).

(** [handle_stderr]: completion of a read.  [output] is what
    [read_line_finish_utf8] returned: the line, or [None] at end of stream.
    The deque appended to belongs to the record found in the table. *)
Definition handle_stderr (stream : DataInputStream) (output : option string)
  (ext : string) : M unit :=
  when (Py.truthy_opt output) (emit (EvPrint (default EmptyString output))) ;;
  proc <- get_proc ext ;;
  match proc with
  | None => ret tt
  | Some proc =>
      when (Py.truthy_opt output)
        (modify (set_procs (insert ext
           (with_recent_errors
              (Py.deque_append (recent_errors proc) (default EmptyString output))
              proc)))) ;;
      read_stderr_line proc
  end.

(** [validate()] then [check_compatibility(verbose=True)] inside the [try]:
    the first exception raised, if any. *)
Definition manifest_checks (manifest : ExtensionManifest) : option ManifestExn :=
  match validate manifest with
  | Some e => Some e
  | None => check_compatibility manifest true
  end.

(** [{id: t.keyword for id, t in manifest.triggers.items() if t.keyword}] *)
Definition trigger_keywords (manifest : ExtensionManifest) : Py.dict ValueType :=
  fold_left
    (fun acc it =>
       if Py.truthy (keyword (snd it))
       then Py.dict_set (fst it) (VStr (keyword (snd it))) acc
       else acc)
    (triggers manifest) [].

(** [signal.SIGTERM] is sent first, [signal.SIGKILL] half a second later. *)
Definition termination_delay : float := 0.5%float.

Definition instant_threshold : float := 1%float.

(** The interpreter and installation the runner is part of, and two library
    functions whose output the runner only passes on: [json.dumps] with
    compact separators and the formatting of a [float] in an f-string. *)
Record Platform : Type := {
  sys_executable : string;
  PATHS_APPLICATION : string;
  json_dumps : Py.dict ValueType -> string;
  float_str : float -> string;
}.

Section Runner.

Variable pf : Platform.

(** [cmd = [sys.executable, f"{ext_path}/main.py"]] *)
Definition child_cmd (ext_path : string) : list string :=
  [sys_executable pf; ext_path ++ "/main.py"].

(** The environment set on the launcher.  Preferences used to contain the
    keywords as well, so they are merged back in for older extensions. *)
Definition child_env (v : bool) (manifest : ExtensionManifest) (ext : string)
  : Py.dict string :=
  let backwards_compatible_preferences :=
    Py.dict_merge (trigger_keywords manifest)
                  (get_key_value_user_preferences manifest ext) in
  [("VERBOSE", Py.str_int_bool v);
   ("PYTHONPATH", PATHS_APPLICATION pf);
   ("EXTENSION_PREFERENCES", json_dumps pf backwards_compatible_preferences)].

(** [run]: validate the manifest, then run the extension in a new process.
    [ExtensionManifest.load] is called before the [try], so what it raises
    leaves [run]; what the two checks raise is caught. *)
Definition run (w : World) (ext ext_path : string) : M unit :=
  already <- is_running ext ;;
  if already then ret tt
  else
    modify (set_db (Db.update_record ext "" "")) ;;
    match load w ext_path with
    | LoadRaised e => raise (uncaught e)
    | Loaded manifest =>
        match manifest_checks manifest with
        | Some (ExtensionManifestError err) => set_extension_error ext Invalid err
        | Some (ExtensionIncompatibleWarning err) => set_extension_error ext Incompatible err
        | None =>
            let cmd := child_cmd ext_path in
            v <- gets verbose ;;
            let env := child_env v manifest ext in
            let t_start := time w in
            match spawnv w cmd env with
            | SpawnFailed msg => raise (Py.GLibError msg)
            | Spawned subproc stderr_pipe =>
                emit (EvSpawn cmd env subproc) ;;
                match stderr_pipe with
                | None =>
                    raise (Py.AssertionError
                      "Subprocess must be created with Gio.SubprocessFlags.STDERR_PIPE")
                | Some error_input_stream =>
                    let error_line_str := DataInputStream_new error_input_stream in
                    let proc := mk_proc ext subproc t_start error_line_str (Py.deque_new 1) in
                    register_proc ext proc ;;
                    emit (EvWaitAsync subproc ext) ;;
                    read_stderr_line proc
                end
            end
        end
    end.

(** [handle_exit]: the child behind [subproc] has terminated. *)
Definition handle_exit (w : World) (subproc : obj_id) (ext : string) : M unit :=
  let status := os w subproc in
  present <- get_proc ext ;;
  if Subprocess.get_if_signaled status && bool_decide (is_Some present) then
    let kill_signal := Subprocess.get_term_sig status in
    let error_msg :=
      "Extension " ++ dquote ++ ext ++ dquote ++ " was terminated with signal "
        ++ Py.str_int kill_signal in
    set_extension_error ext Terminated error_msg ;;
    pop_proc ext
  else
    found <- get_proc ext ;;
    match found with
    | None => ret tt
    | Some proc =>
        if negb (Pos.eqb (subprocess proc) subproc) then ret tt
        else
          let uptime_seconds := PrimFloat.sub (time w) (start_time proc) in
          let code := Subprocess.get_exit_status status in
          if PrimFloat.ltb uptime_seconds instant_threshold then
            let default_error_msg :=
              "Extension " ++ dquote ++ ext ++ dquote ++ " exited instantly with code "
                ++ Py.str_int code in
            let lasterr := Py.join newline (Py.items (recent_errors proc)) in
            (if Py.contains "ModuleNotFoundError" lasterr then
               match Py.split squote lasterr !! 1%nat with
               | None => raise (Py.IndexError "list index out of range")
               | Some package_name =>
                   if String.eqb package_name "ulauncher" then
                     set_extension_error ext Incompatible default_error_msg
                   else if Py.truthy package_name then
                     set_extension_error ext MissingModule package_name
                   else ret tt
               end
             else set_extension_error ext Terminated default_error_msg) ;;
            pop_proc ext
          else
            let error_msg :=
              "Extension " ++ dquote ++ ext ++ dquote ++ " exited with code "
                ++ Py.str_int code ++ " after " ++ float_str pf uptime_seconds ++ " seconds." in
            set_extension_error ext Exited error_msg ;;
            pop_proc ext
    end.

(** [confirm_termination]: the delayed check after [stop]. *)
Definition confirm_termination (w : World) (proc : ExtensionProc) : M unit :=
  when (Py.truthy_opt (Subprocess.get_identifier (os w (subprocess proc))))
    (emit (EvSendSignal (subprocess proc) SIGKILL)).

(** [stop]: terminate the extension.  The membership test and the lookup
    [self.extension_procs[ext_id]] that follows it are one lookup here. *)
Definition stop (ext : string) : M unit :=
  found <- get_proc ext ;;
  match found with
  | None => ret tt
  | Some proc =>
      pop_proc ext ;;
      emit (EvSendSignal (subprocess proc) SIGTERM) ;;
      modify (set_timers (fun ts => (ts ++ [(termination_delay, proc)])%list))
  end.

(** Modelled from the spec: [ulauncher.utils.timer.timer], whose source is not
    part of this development, schedules a one-shot delayed call.  When the
    main loop fires the oldest pending timer it leaves the queue and its
    callback, always [confirm_termination] of the record [stop] captured, runs
    once. *)
Definition fire_timer (w : World) : M unit :=
  ts <- gets timers ;;
  match ts with
  | [] => ret tt
  | (_, proc) :: rest =>
      modify (set_timers (fun _ => rest)) ;;
      confirm_termination w proc
  end.

End Runner.

(** ** States the methods end in

    Named here so that the theorems below can say where a call ends. *)

(** After [set_extension_error ext error message]: the record of [ext] holds
    the diagnosis and the whole database has been saved. *)
Definition recorded (ext : string) (error : ExtensionRuntimeError) (message : string)
  (st : State) : State :=
  mk_state (extension_procs st) (verbose st)
    (Db.save (Db.update_record ext message (error_type_str error) (ext_db st)))
    (timers st) (trace st ++ [EvDbSave]).

(** After a present record of [ext] has been popped from the table. *)
Definition removed (ext : string) (st : State) : State :=
  mk_state (delete ext (extension_procs st)) (verbose st) (ext_db st)
    (timers st) (trace st ++ [EvRemoved ext]).

(** After the exit handler has diagnosed and dropped [ext]. *)
Definition diagnosed (ext : string) (error : ExtensionRuntimeError) (message : string)
  (st : State) : State :=
  removed ext (recorded ext error message st).

(** After the reset at the start of [run]: only the in-memory record of [ext]
    is cleared. *)
Definition reset (ext : string) (st : State) : State :=
  set_db (Db.update_record ext "" "") st.

(** The messages the exit handler composes. *)
Definition msg_signal (ext : string) (sig : Z) : string :=
  "Extension " ++ dquote ++ ext ++ dquote ++ " was terminated with signal "
    ++ Py.str_int sig.

Definition msg_instant (ext : string) (code : Z) : string :=
  "Extension " ++ dquote ++ ext ++ dquote ++ " exited instantly with code "
    ++ Py.str_int code.

Definition msg_exited (uptime : string) (ext : string) (code : Z) : string :=
  "Extension " ++ dquote ++ ext ++ dquote ++ " exited with code "
    ++ Py.str_int code ++ " after " ++ uptime ++ " seconds.".

(** What the exit handler joins and inspects. *)
Definition lasterr_of (proc : ExtensionProc) : string :=
  Py.join newline (Py.items (recent_errors proc)).

Definition uptime_of (w : World) (proc : ExtensionProc) : float :=
  PrimFloat.sub (time w) (start_time proc).

(** ** The main loop

    The methods are entered from outside ([run], [stop]) and from the GLib
    main loop (the completion handlers and the timer), one call at a time. *)

Inductive Call : Type :=
| CallRun (w : World) (ext path : string)
| CallStop (ext : string)
| CallHandleStderr (stream : DataInputStream) (output : option string) (ext : string)
| CallHandleExit (w : World) (subproc : obj_id) (ext : string)
| CallFireTimer (w : World).

Definition perform (pf : Platform) (c : Call) : M unit :=
  match c with
  | CallRun w ext path => run pf w ext path
  | CallStop ext => stop ext
  | CallHandleStderr stream output ext => handle_stderr stream output ext
  | CallHandleExit w subproc ext => handle_exit pf w subproc ext
  | CallFireTimer w => fire_timer w
  end.

(** A sequence of calls.  An exception that escapes a call ends that call
    only; the state stays as the call left it. *)
Definition perform_all (pf : Platform) (calls : list Call) (st : State) : State :=
  fold_left (fun st c => exec (perform pf c) st) calls st.

(** A record of the table is well formed under its key: it carries the key as
    its id and its deque has capacity 1 and holds at most one line. *)
Definition record_ok (id : string) (proc : ExtensionProc) : Prop :=
  ext_id proc = id
  /\ Py.maxlen (recent_errors proc) = 1%nat
  /\ (length (Py.items (recent_errors proc)) <= 1)%nat.

(** The table and the in-memory database agree: every record is well formed,
    and an extension that is running has no error in memory. *)
Definition consistent (st : State) : Prop :=
  forall (id : string) (proc : ExtensionProc),
    extension_procs st !! id = Some proc ->
    record_ok id proc /\ Db.current_error id (ext_db st) = EmptyString.

(** ** A concrete installation and extension, for the examples *)

Module Demo.

(** The demo manifests declare no trigger and no preference, so the
    preferences blob is the empty JSON object; the only float the examples
    format is 5.5. *)
Definition platform : Platform := {|
  sys_executable := "/usr/bin/python3";
  PATHS_APPLICATION := "/usr/share/ulauncher";
  json_dumps := fun _ => "{}";
  float_str := fun _ => "5.5";
|}.

Definition ext : string := "com.example.demo".
Definition path : string := "/ext/com.example.demo".

Definition manifest_ok : ExtensionManifest := {|
  validate := None;
  check_compatibility := fun _ => None;
  triggers := [];
  get_key_value_user_preferences := fun _ => [];
|}.

Definition manifest_invalid : ExtensionManifest := {|
  validate := Some (ExtensionManifestError "name is not provided");
  check_compatibility := fun _ => None;
  triggers := [];
  get_key_value_user_preferences := fun _ => [];
|}.

Definition manifest_incompatible : ExtensionManifest := {|
  validate := None;
  check_compatibility := fun _ => Some (ExtensionIncompatibleWarning "requires API 3");
  triggers := [];
  get_key_value_user_preferences := fun _ => [];
|}.

Definition world (t : float) (manifest : ExtensionManifest) (spawned : SpawnResult)
  (status : obj_id -> ProcStatus) : World := {|
  time := t;
  load := fun _ => Loaded manifest;
  spawnv := fun _ _ => spawned;
  os := status;
|}.

Definition all_alive : obj_id -> ProcStatus := fun _ => Alive 4242.

(** Nothing runs; the database, in memory and saved, holds the record of the
    installed extension, without an error. *)
Definition initial : State :=
  mk_state ∅ false
    (mk_db {[ ext := empty_record ]} {[ ext := empty_record ]}) [] [].

(** At time 100 the extension is started as subprocess 1 with pipe 2. *)
Definition w_start : World :=
  world 100%float manifest_ok (Spawned 1%positive (Some 2%positive)) all_alive.

Definition started : State := exec (run platform w_start ext path) initial.

Definition first_proc : ExtensionProc :=
  mk_proc ext 1%positive 100%float (DataInputStream_new 2%positive) (Py.deque_new 1).

(** The child writes one line to its standard error. *)
Definition wrote (line : string) : State :=
  exec (handle_stderr (DataInputStream_new 2%positive) (Some line) ext) started.

Definition line_requests : string :=
  "ModuleNotFoundError: No module named " ++ String squote "requests" ++ String squote "".

Definition line_empty_name : string :=
  "ModuleNotFoundError: No module named " ++ String squote (String squote "").

Definition line_unquoted : string := "Caught ModuleNotFoundError, giving up".

(** Half a second after the start the child is gone with status 1. *)
Definition w_exit_fast : World :=
  world 100.5%float manifest_ok (Spawned 1%positive (Some 2%positive))
    (fun _ => ExitedWith 1).

(** Half a second after the start the child is gone, killed by signal 9. *)
Definition w_killed_fast : World :=
  world 100.5%float manifest_ok (Spawned 1%positive (Some 2%positive))
    (fun _ => KilledBy 9).

(** Five and a half seconds after the start the child is gone with status 0. *)
Definition w_exit_late : World :=
  world 105.5%float manifest_ok (Spawned 1%positive (Some 2%positive))
    (fun _ => ExitedWith 0).

(** Five and a half seconds after the start the child is gone, killed by
    signal 9. *)
Definition w_killed_late : World :=
  world 105.5%float manifest_ok (Spawned 1%positive (Some 2%positive))
    (fun _ => KilledBy 9).

(** The first run has ended with status 0 after 5.5 seconds. *)
Definition exited_once : State :=
  exec (handle_exit platform w_exit_late 1%positive ext) started.

(** A second start, at time 200, as subprocess 3 with pipe 4. *)
Definition w_start_again : World :=
  world 200%float manifest_ok (Spawned 3%positive (Some 4%positive)) all_alive.

(** The running extension is stopped and started again at once, as subprocess
    3 with pipe 4. *)
Definition stopped : State := exec (stop ext) started.

Definition w_restart : World :=
  world 101%float manifest_ok (Spawned 3%positive (Some 4%positive)) all_alive.

Definition restarted : State := exec (run platform w_restart ext path) stopped.

(** Then the notification that subprocess 1 died of the [SIGTERM] arrives. *)
Definition w_old_died : World :=
  world 101.25%float manifest_ok (Spawned 3%positive (Some 4%positive))
    (fun h => if Pos.eqb h 1 then KilledBy SIGTERM else Alive 4243).

(** Worlds in which the manifest is rejected, and in which the spawned child
    has no standard-error pipe. *)
Definition w_invalid : World :=
  world 100%float manifest_invalid (Spawned 1%positive (Some 2%positive)) all_alive.

Definition w_incompatible : World :=
  world 100%float manifest_incompatible (Spawned 1%positive (Some 2%positive)) all_alive.

Definition w_no_pipe : World :=
  world 100%float manifest_ok (Spawned 1%positive None) all_alive.

(** A world in which loading the manifest itself raises the validation
    error. *)
Definition w_load_invalid : World := {|
  time := 100%float;
  load := fun _ => LoadRaised (ExtensionManifestError "name is not provided");
  spawnv := fun _ _ => Spawned 1%positive (Some 2%positive);
  os := all_alive;
|}.

End Demo.

(** ** Reading dicts and traces *)

Module Dict.

(** [d.get(k)]: the value under [k], [None] when [k] is not a key. *)
Fixpoint get {V} (k : string) (d : Py.dict V) : option V :=
  match d with
  | [] => None
  | (k', v) :: d' => if String.eqb k k' then Some v else get k d'
  end.


End Dict.

(** How often [sig] was sent to [subproc]. *)
Definition is_signal (subproc : obj_id) (sig : Z) (e : Event) : bool :=
  match e with
  | EvSendSignal h s => Pos.eqb h subproc && Z.eqb s sig
  | _ => false
  end.

Definition signals_sent (subproc : obj_id) (sig : Z) (events : list Event) : nat :=
  length (List.filter (is_signal subproc sig) events).

(** How many delayed checks wait for [subproc]. *)
Definition checks_pending (subproc : obj_id) (ts : list (float * ExtensionProc)) : nat :=
  length (List.filter (fun t => Pos.eqb (subprocess (snd t)) subproc) ts).

(** [subproc] came out of a spawn of the runner. *)
Definition was_spawned (subproc : obj_id) (events : list Event) : Prop :=
  exists cmd env, EvSpawn cmd env subproc ∈ events.

(** The runner signals only its own children and escalates only after asking:
    every record and every pending check is for a spawned subprocess, every
    signal went to a spawned subprocess, and for each subprocess the kills
    sent plus the checks still pending never exceed the terminations sent. *)
Definition signal_safe (st : State) : Prop :=
  (forall id proc, extension_procs st !! id = Some proc ->
                   was_spawned (subprocess proc) (trace st))
  /\ (forall t, t ∈ timers st -> was_spawned (subprocess (snd t)) (trace st))
  /\ (forall h sig, EvSendSignal h sig ∈ trace st -> was_spawned h (trace st))
  /\ (forall h, (signals_sent h SIGKILL (trace st) + checks_pending h (timers st)
                 <= signals_sent h SIGTERM (trace st))%nat).

(** An event that is not a signal. *)
Definition quiet (e : Event) : Prop :=
  match e with EvSendSignal _ _ => False | _ => True end.

(** The extension a call is about; the timer is about none. *)
Definition call_target (c : Call) : option string :=
  match c with
  | CallRun _ ext _ => Some ext
  | CallStop ext => Some ext
  | CallHandleStderr _ _ ext => Some ext
  | CallHandleExit _ _ ext => Some ext
  | CallFireTimer _ => None
  end.

(** * ExtensionPreferences: the preferences of one extension

    A shallow embedding of [ulauncher/modes/extensions/ExtensionPreferences.py].
    An instance holds the manifest's preference declarations, a key-value
    database of the stored values and a flag that tells whether the database
    has been opened. *)

Module Prefs.

(** Values as they come out of a JSON manifest or the database.  Numbers are
    the integers; [PBool] is Python's [bool]. *)
#[warnings="-register-all"]
Inductive PyVal : Type :=
| PNone
| PBool (b : bool)
| PInt (n : Z)
| PStr (s : string)
| PList (l : list PyVal)
| PDict (d : list (string * PyVal)).

Inductive exn : Type :=
| KeyError (key : string)
| TypeError (msg : string).

(** A call returns a value or raises. *)
Inductive result (A : Type) : Type :=
| Return (a : A)
| Raise (e : exn).

Arguments Return {A} a.
Arguments Raise {A} e.

Definition bind {A B} (r : result A) (k : A -> result B) : result B :=
  match r with
  | Return a => k a
  | Raise e => Raise e
  end.

(** Truth value of a Python object. *)
Definition truthy (v : PyVal) : bool :=
  match v with
  | PNone => false
  | PBool b => b
  | PInt n => negb (Z.eqb n 0)
  | PStr s => Py.truthy s
  | PList l => match l with [] => false | _ => true end
  | PDict d => match d with [] => false | _ => true end
  end.

(** [a or b] *)
Definition or_else (a b : PyVal) : PyVal := if truthy a then a else b.

(** [s == v] for a string [s]: only an equal string is equal. *)
Definition eq_str (s : string) (v : PyVal) : bool :=
  match v with
  | PStr s' => String.eqb s s'
  | _ => false
  end.

(** Lists and dicts cannot be dict keys. *)
Definition hashable (v : PyVal) : bool :=
  match v with
  | PList _ | PDict _ => false
  | _ => true
  end.

(** [type(v).__name__] *)
Definition type_name (v : PyVal) : string :=
  match v with
  | PNone => "NoneType"
  | PBool _ => "bool"
  | PInt _ => "int"
  | PStr _ => "str"
  | PList _ => "list"
  | PDict _ => "dict"
  end.

(** What hashing a list or dict raises: [TypeError("unhashable type: 'list'")],
    with the name of the value's type between the quotes. *)
Definition unhashable (v : PyVal) : exn :=
  TypeError ("unhashable type: " ++ String squote (type_name v ++ String squote "")).

(** [k1 == k2] for hashable values: [True == 1] and [False == 0]. *)
Definition key_eq (k1 k2 : PyVal) : bool :=
  match k1, k2 with
  | PNone, PNone => true
  | PStr s1, PStr s2 => String.eqb s1 s2
  | PBool b1, PBool b2 => Bool.eqb b1 b2
  | PInt n1, PInt n2 => Z.eqb n1 n2
  | PBool b, PInt n | PInt n, PBool b => Z.eqb n (if b then 1 else 0)
  | _, _ => false
  end.

(** One declaration of [manifest.preferences]: a dict with string keys. *)
Abbreviation decl := (gmap string PyVal).

(** [p[key]] *)
Definition getitem (p : decl) (key : string) : result PyVal :=
  match p !! key with
  | Some v => Return v
  | None => Raise (KeyError key)
  end.

(** [p.get(key, fallback)] *)
Definition get_or (p : decl) (key : string) (fallback : PyVal) : PyVal :=
  default fallback (p !! key).

(** [{'number': 0, 'checkbox': False}.get(ty, '')] *)
Definition default_fallback (ty : PyVal) : result PyVal :=
  if negb (hashable ty) then Raise (unhashable ty)
  else if eq_str "number" ty then Return (PInt 0)
  else if eq_str "checkbox" ty then Return (PBool false)
  else Return (PStr "").

End Prefs.

(** [PreferenceItem] *)
Module Item.

Record t : Type := mk {
  id : Prefs.PyVal;
  type : Prefs.PyVal;
  name : Prefs.PyVal;
  description : Prefs.PyVal;
  min : Prefs.PyVal;
  max : Prefs.PyVal;
  options : Prefs.PyVal;
  default_value : Prefs.PyVal;
  value : Prefs.PyVal;
  icon : Prefs.PyVal;
}.

End Item.

(** The key-value database behind the preferences ([KeyValueJsonDb], whose
    source is not part of this development), taken as a parameter: a type of
    database states with the four methods the preferences call.  [find]
    answers [None] ([PNone]) for an absent key and may raise. *)
Record KeyValueJsonDb : Type := {
  DB : Type;
  db_open : DB -> DB;
  db_find : DB -> Prefs.PyVal -> Prefs.result Prefs.PyVal;
  db_put : DB -> string -> string -> DB;
  db_commit : DB -> DB;
}.

Section ExtensionPreferences.

Variable kv : KeyValueJsonDb.

(** An instance: [self.manifest.preferences], [self.db], [self._db_is_open]. *)
Record ExtensionPreferences : Type := mk_prefs {
  preferences : list Prefs.decl;
  db : DB kv;
  _db_is_open : bool;
}.

(** [__init__]: the database is not opened yet. *)
Definition new_preferences (declared : list Prefs.decl) (fresh : DB kv)
  : ExtensionPreferences :=
  mk_prefs declared fresh false.

(** [_open_db] *)
Definition _open_db (self : ExtensionPreferences) : ExtensionPreferences :=
  if _db_is_open self then self
  else mk_prefs (preferences self) (db_open kv (db self)) true.

(** The body of the loop of [get_items] for one declaration: [None] when the
    declaration is skipped, the item otherwise.  The lookups happen in the
    order of the source, so the first missing key is the one reported. *)
Definition item_of (store : DB kv) (type : option string) (p : Prefs.decl)
  : Prefs.result (option Item.t) :=
  Prefs.bind
    (if Py.truthy_opt type
     then Prefs.bind (Prefs.getitem p "type")
            (fun ty => Prefs.Return (negb (Prefs.eq_str (default EmptyString type) ty)))
     else Prefs.Return false)
    (fun skip =>
       if skip then Prefs.Return None
       else
         Prefs.bind (Prefs.getitem p "type") (fun ty =>
         Prefs.bind (Prefs.default_fallback ty) (fun default_fallback =>
         let default_value := Prefs.get_or p "default_value" default_fallback in
         Prefs.bind (Prefs.getitem p "id") (fun id =>
         Prefs.bind (Prefs.getitem p "type") (fun ty' =>
         Prefs.bind (Prefs.getitem p "id") (fun id' =>
         Prefs.bind (db_find kv store id') (fun found =>
         Prefs.Return
           (Some
              {| Item.id := id;
                 Item.type := ty';
                 Item.name := Prefs.get_or p "name" (Prefs.PStr "");
                 Item.description := Prefs.get_or p "description" (Prefs.PStr "");
                 Item.min := Prefs.get_or p "min" (Prefs.PInt 0);
                 Item.max := Prefs.get_or p "max" Prefs.PNone;
                 Item.options := Prefs.get_or p "options" (Prefs.PList []);
                 Item.default_value := default_value;
                 Item.value := Prefs.or_else found default_value;
                 Item.icon := Prefs.get_or p "icon" Prefs.PNone |})))))))).

(** The loop of [get_items]: the items of the declarations in order; an
    exception ends it. *)
Fixpoint items_of (store : DB kv) (type : option string) (ps : list Prefs.decl)
  : Prefs.result (list Item.t) :=
  match ps with
  | [] => Prefs.Return []
  | p :: ps' =>
      Prefs.bind (item_of store type p) (fun item =>
      Prefs.bind (items_of store type ps') (fun items =>
      Prefs.Return (match item with Some i => i :: items | None => items end)))
  end.

(** [get_items(type)]: opens the database if needed, then builds the items. *)
Definition get_items (type : option string) (self : ExtensionPreferences)
  : Prefs.result (list Item.t) * ExtensionPreferences :=
  let self' := _open_db self in
  (items_of (db self') type (preferences self'), self').

(** [items[k] = v] on a dict with arbitrary hashable keys: an equal key keeps
    its place and its key object. *)
Fixpoint assign (k v : Prefs.PyVal) (d : list (Prefs.PyVal * Prefs.PyVal))
  : list (Prefs.PyVal * Prefs.PyVal) :=
  match d with
  | [] => [(k, v)]
  | (k', v') :: d' =>
      if Prefs.key_eq k' k then (k', v) :: d' else (k', v') :: assign k v d'
  end.

(** [d[k]] read as an option. *)
Fixpoint lookup_key (k : Prefs.PyVal) (d : list (Prefs.PyVal * Prefs.PyVal))
  : option Prefs.PyVal :=
  match d with
  | [] => None
  | (k', v') :: d' => if Prefs.key_eq k' k then Some v' else lookup_key k d'
  end.

(** The loop of [get_dict]. *)
Fixpoint dict_of (items : list Item.t) (acc : list (Prefs.PyVal * Prefs.PyVal))
  : Prefs.result (list (Prefs.PyVal * Prefs.PyVal)) :=
  match items with
  | [] => Prefs.Return acc
  | i :: items' =>
      if Prefs.hashable (Item.id i)
      then dict_of items' (assign (Item.id i) (Item.value i) acc)
      else Prefs.Raise (Prefs.unhashable (Item.id i))
  end.

(** [get_dict()] *)
Definition get_dict (self : ExtensionPreferences)
  : Prefs.result (list (Prefs.PyVal * Prefs.PyVal)) * ExtensionPreferences :=
  let (r, self') := get_items None self in
  (Prefs.bind r (fun items => dict_of items []), self').

(** The loop of [get]: the first item with the id. *)
Fixpoint first_with_id (id : string) (items : list Item.t) : option Item.t :=
  match items with
  | [] => None
  | i :: items' => if Prefs.eq_str id (Item.id i) then Some i else first_with_id id items'
  end.

(** [get(id)] *)
Definition get (id : string) (self : ExtensionPreferences)
  : Prefs.result (option Item.t) * ExtensionPreferences :=
  let (r, self') := get_items None self in
  (Prefs.bind r (fun items => Prefs.Return (first_with_id id items)), self').

(** [get_active_keywords()] *)
Definition get_active_keywords (self : ExtensionPreferences)
  : Prefs.result (list Prefs.PyVal) * ExtensionPreferences :=
  let (r, self') := get_items (Some "keyword") self in
  (Prefs.bind r
     (fun items =>
        Prefs.Return
          (map Item.value (List.filter (fun p => Prefs.truthy (Item.value p)) items))),
   self').

(** [set(id, value)]: put and commit, without opening. *)
Definition set (id value : string) (self : ExtensionPreferences) : ExtensionPreferences :=
  mk_prefs (preferences self) (db_commit kv (db_put kv (db self) id value))
    (_db_is_open self).

(** Whether the loop of [get_items] keeps a declaration. *)
Definition kept (type : option string) (p : Prefs.decl) : bool :=
  negb (Py.truthy_opt type)
  || match p !! "type" with
     | Some ty => Prefs.eq_str (default EmptyString type) ty
     | None => false
     end.

(** What the item built from a declaration holds. *)
Definition describes (store : DB kv) (p : Prefs.decl) (i : Item.t) : Prop :=
  p !! "id" = Some (Item.id i)
  /\ p !! "type" = Some (Item.type i)
  /\ Item.name i = default (Prefs.PStr "") (p !! "name")
  /\ Item.description i = default (Prefs.PStr "") (p !! "description")
  /\ Item.min i = default (Prefs.PInt 0) (p !! "min")
  /\ Item.max i = default Prefs.PNone (p !! "max")
  /\ Item.options i = default (Prefs.PList []) (p !! "options")
  /\ Item.icon i = default Prefs.PNone (p !! "icon")
  /\ (exists fallback,
         Prefs.default_fallback (Item.type i) = Prefs.Return fallback
         /\ Item.default_value i = default fallback (p !! "default_value"))
  /\ (exists found,
         db_find kv store (Item.id i) = Prefs.Return found
         /\ Item.value i
            = if Prefs.truthy found then found else Item.default_value i).

(** Whether a type filter lets an item through. *)
Definition passes (type : option string) (i : Item.t) : bool :=
  negb (Py.truthy_opt type) || Prefs.eq_str (default EmptyString type) (Item.type i).

End ExtensionPreferences.

(** ** More examples *)

Module Sample.


(** The child's last line names a submodule of the host package. *)
Definition line_submodule : string :=
  "ModuleNotFoundError: No module named "
    ++ String squote ("ulauncher.api" ++ String squote "").

Definition wrote_submodule : State :=
  exec (handle_stderr (DataInputStream_new 2%positive) (Some line_submodule) Demo.ext)
    Demo.started.

(** After the restart of [Demo.restarted], the old subprocess 1 reports a
    normal exit with status 0. *)
Definition w_old_exited : World :=
  Demo.world 101.25%float Demo.manifest_ok (Spawned 3%positive (Some 4%positive))
    (fun h => if Pos.eqb h 1 then ExitedWith 0 else Alive 4243).

(** A world in which nothing can be started any more. *)
Definition w_broken : World :=
  Demo.world 300%float Demo.manifest_invalid (SpawnFailed "no such file") Demo.all_alive.

Definition other_ext : string := "com.example.other".
Definition other_path : string := "/ext/com.example.other".

(** While [Demo.ext] runs, a second extension is started at time 102 as
    subprocess 5 with pipe 6. *)
Definition w_start_other : World :=
  Demo.world 102%float Demo.manifest_ok (Spawned 5%positive (Some 6%positive))
    Demo.all_alive.

Definition both_started : State :=
  exec (run Demo.platform w_start_other other_ext other_path) Demo.started.

Definition other_proc : ExtensionProc :=
  mk_proc other_ext 5%positive 102%float (DataInputStream_new 6%positive) (Py.deque_new 1).

(** With [Demo.ext] running: it writes a line, the second extension is
    started, stopped again, and its delayed check fires. *)
Definition busy_calls : list Call :=
  [CallHandleStderr (DataInputStream_new 2%positive) (Some Demo.line_requests) Demo.ext;
   CallRun w_start_other other_ext other_path;
   CallStop other_ext;
   CallFireTimer w_start_other].

(** A day in the life of the runner. *)
Definition calls : list Call :=
  [CallRun Demo.w_start Demo.ext Demo.path;
   CallHandleStderr (DataInputStream_new 2%positive) (Some Demo.line_requests) Demo.ext;
   CallStop Demo.ext;
   CallRun Demo.w_restart Demo.ext Demo.path;
   CallHandleExit Demo.w_old_died 1%positive Demo.ext;
   CallFireTimer Demo.w_start;
   CallStop Demo.ext].

End Sample.

(** ** Example preferences *)

Module PrefSample.

(** A database held in memory: string keys, string values, nothing to open
    or commit.  A list or dict as key raises, any other key that is not a
    string is absent. *)
Definition memory_db : KeyValueJsonDb := {|
  DB := gmap string string;
  db_open := fun d => d;
  db_find := fun d k =>
    match k with
    | Prefs.PStr s =>
        Prefs.Return (match d !! s with Some v => Prefs.PStr v | None => Prefs.PNone end)
    | Prefs.PList _ | Prefs.PDict _ => Prefs.Raise (Prefs.unhashable k)
    | _ => Prefs.Return Prefs.PNone
    end;
  db_put := fun d k v => <[k := v]> d;
  db_commit := fun d => d;
|}.

Definition p_kw : Prefs.decl :=
  list_to_map [("id", Prefs.PStr "kw"); ("type", Prefs.PStr "keyword");
               ("name", Prefs.PStr "Keyword"); ("default_value", Prefs.PStr "tm")].

Definition p_limit : Prefs.decl :=
  list_to_map [("id", Prefs.PStr "limit"); ("type", Prefs.PStr "number")].

Definition p_notify : Prefs.decl :=
  list_to_map [("id", Prefs.PStr "notify"); ("type", Prefs.PStr "checkbox");
               ("default_value", Prefs.PBool true)].

(** A declaration without id. *)
Definition p_no_id : Prefs.decl := list_to_map [("type", Prefs.PStr "input")].

(** A declaration whose type is a list. *)
Definition p_list_type : Prefs.decl :=
  list_to_map [("id", Prefs.PStr "mode"); ("type", Prefs.PList [Prefs.PStr "select"])].

(** Stored: a keyword, and an empty string for the checkbox. *)
Definition stored : gmap string string :=
  list_to_map [("kw", "timer"); ("notify", "")].

Definition instance : ExtensionPreferences memory_db :=
  new_preferences memory_db [p_kw; p_limit; p_notify] stored.

Definition incomplete : ExtensionPreferences memory_db :=
  new_preferences memory_db [p_kw; p_no_id; p_limit] stored.

Definition mistyped : ExtensionPreferences memory_db :=
  new_preferences memory_db [p_kw; p_list_type; p_limit] stored.

End PrefSample.

(** * Properties *)

(** ** Basic facts about strings, floats and the table *)

Lemma running_true_lookup (st : State) (ext : string) :
  running st ext = true <-> exists proc, extension_procs st !! ext = Some proc.
Proof.
  unfold running. rewrite bool_decide_eq_true. reflexivity.
Qed.

Lemma running_false_lookup (st : State) (ext : string) :
  running st ext = false <-> extension_procs st !! ext = None.
Proof.
  unfold running. rewrite bool_decide_eq_false, <- eq_None_not_Some. reflexivity.
Qed.

(** A pid prints as a non-empty string, so a live child's identifier is
    true in a condition. *)
Lemma pretty_N_go_nonempty (x : N) (s : string) :
  s <> EmptyString -> pretty_N_go x s <> EmptyString.
Proof.
  revert s. induction (N.lt_wf_0 x) as [x _ IH]; intros s Hs.
  destruct (decide (x = 0%N)) as [->|Hx].
  - rewrite pretty_N_go_0. exact Hs.
  - rewrite pretty_N_go_step by lia.
    apply IH; [apply N.div_lt; lia | discriminate].
Qed.

Lemma identifier_of_alive_truthy (pid : positive) :
  Py.truthy_opt (Subprocess.get_identifier (Alive pid)) = true.
Proof.
  simpl. unfold pretty, pretty_positive, pretty, pretty_N.
  destruct (decide (N.pos pid = 0%N)) as [H|_]; [discriminate H|].
  rewrite pretty_N_go_step by lia.
  pose proof (pretty_N_go_nonempty (N.pos pid `div` 10)
                (String (pretty_N_char (N.pos pid `mod` 10)) EmptyString)) as Hne.
  destruct (pretty_N_go _ _); [exfalso; apply Hne; [discriminate | reflexivity] | reflexivity].
Qed.

(** [not (x < y)] follows from [y <= x] on floats (neither is a NaN then). *)
Lemma SFleb_not_SFltb (a b : spec_float) : SFleb a b = true -> SFltb b a = false.
Proof.
  unfold SFleb, SFltb.
  destruct a as [sa|sa| |sa ma ea], b as [sb|sb| |sb mb eb]; simpl;
    try discriminate; try reflexivity;
    try (destruct sa; try discriminate; try reflexivity; fail);
    try (destruct sb; try discriminate; try reflexivity; fail);
    try (destruct sa, sb; try discriminate; try reflexivity; fail).
  change (PosDef.Pos.compare_cont Eq mb ma) with (Pos.compare mb ma).
  change (PosDef.Pos.compare_cont Eq ma mb) with (Pos.compare ma mb).
  rewrite (Z.compare_antisym ea eb), (Pos.compare_antisym ma mb).
  destruct sa, sb; try discriminate; try reflexivity;
    destruct (ea ?= eb)%Z; simpl; try discriminate; try reflexivity;
    destruct (ma ?= mb)%positive; simpl; try discriminate; try reflexivity.
Qed.

Lemma float_leb_not_ltb (x y : float) :
  PrimFloat.leb x y = true -> PrimFloat.ltb y x = false.
Proof. rewrite leb_spec, ltb_spec. apply SFleb_not_SFltb. Qed.

(** A line without the separator splits into itself alone, so it has no
    element 1. *)
Lemma contains_char_cons (c a : ascii) (s : string) :
  Py.contains (String c EmptyString) (String a s)
  = if Ascii.eqb a c then true else Py.contains (String c EmptyString) s.
Proof.
  simpl. destruct (ascii_dec c a) as [->|Hne].
  - rewrite Ascii.eqb_refl. destruct s; reflexivity.
  - destruct (Ascii.eqb_spec a c) as [->|_]; [contradiction Hne; reflexivity | reflexivity].
Qed.

Lemma split_without_separator (c : ascii) (s : string) :
  Py.contains (String c EmptyString) s = false -> Py.split c s = [s].
Proof.
  induction s as [|a s IH]; intros H; [reflexivity|].
  rewrite contains_char_cons in H. simpl.
  destruct (Ascii.eqb a c); [discriminate H|].
  rewrite (IH H). reflexivity.
Qed.

(** ** How the primitive steps run *)

Ltac step_monad :=
  unfold get_proc, is_running, read_stderr_line, emit, when;
  unfold bind, ret, gets, modify, raise; cbn beta iota.

Lemma set_extension_error_runs (ext : string) (error : ExtensionRuntimeError)
  (message : string) (st : State) :
  set_extension_error ext error message st = (Ok tt, recorded ext error message st).
Proof. reflexivity. Qed.

Lemma pop_proc_present (ext : string) (proc : ExtensionProc) (st : State) :
  extension_procs st !! ext = Some proc ->
  pop_proc ext st = (Ok tt, removed ext st).
Proof.
  intros H. unfold pop_proc. step_monad. rewrite H. reflexivity.
Qed.

Lemma pop_proc_absent (ext : string) (st : State) :
  extension_procs st !! ext = None ->
  pop_proc ext st = (Ok tt, st).
Proof.
  intros H. unfold pop_proc. step_monad. rewrite H. reflexivity.
Qed.

Lemma recorded_lookup (ext ext' : string) (error : ExtensionRuntimeError)
  (message : string) (st : State) :
  extension_procs (recorded ext error message st) !! ext' = extension_procs st !! ext'.
Proof. reflexivity. Qed.

Lemma recorded_record (ext : string) (error : ExtensionRuntimeError)
  (message : string) (st : State) :
  records (ext_db (recorded ext error message st)) !! ext
    = Some (mk_record message (error_type_str error))
  /\ saved (ext_db (recorded ext error message st)) !! ext
    = Some (mk_record message (error_type_str error)).
Proof. split; simpl; apply lookup_insert_eq. Qed.

Lemma diagnosed_facts (ext : string) (error : ExtensionRuntimeError)
  (message : string) (st : State) :
  let st' := diagnosed ext error message st in
  running st' ext = false
  /\ records (ext_db st') !! ext = Some (mk_record message (error_type_str error))
  /\ saved (ext_db st') !! ext = Some (mk_record message (error_type_str error)).
Proof.
  cbn zeta. split.
  - apply running_false_lookup. simpl. apply lookup_delete_eq.
  - apply recorded_record.
Qed.

(** ** The branches of the exit handler *)

Section ExitHandler.

Variable pf : Platform.


(** No record for the id: the notification is stale and nothing changes. *)
Lemma handle_exit_absent (w : World) (subproc : obj_id) (ext : string) (st : State) :
  extension_procs st !! ext = None ->
  handle_exit pf w subproc ext st = (Ok tt, st).
Proof.
  intros H. unfold handle_exit. step_monad. rewrite H.
  rewrite andb_false_r. cbn beta iota. rewrite H. reflexivity.
Qed.

(** A record for another subprocess and a child that was not signaled:
    stale as well. *)
Lemma handle_exit_other_process (w : World) (subproc : obj_id) (ext : string)
  (proc : ExtensionProc) (st : State) :
  extension_procs st !! ext = Some proc ->
  subprocess proc <> subproc ->
  Subprocess.get_if_signaled (os w subproc) = false ->
  handle_exit pf w subproc ext st = (Ok tt, st).
Proof.
  intros H Hne Hsig. unfold handle_exit. step_monad. rewrite H, Hsig.
  cbn beta iota. cbn [andb]. rewrite H.
  destruct (Pos.eqb_spec (subprocess proc) subproc) as [Heq|_]; [contradiction|].
  reflexivity.
Qed.

(** A signaled child and any record for the id, whichever process it
    describes: [Terminated]. *)
Lemma handle_exit_signaled (w : World) (subproc : obj_id) (ext : string)
  (proc : ExtensionProc) (sig : Z) (st : State) :
  extension_procs st !! ext = Some proc ->
  os w subproc = KilledBy sig ->
  handle_exit pf w subproc ext st
  = (Ok tt, diagnosed ext Terminated (msg_signal ext sig) st).
Proof.
  intros H Hos. unfold handle_exit. step_monad. rewrite H, Hos.
  change (bool_decide (is_Some (Some proc))) with true.
  cbn [Subprocess.get_if_signaled Subprocess.get_term_sig andb]. cbn beta iota.
  rewrite set_extension_error_runs.
  rewrite pop_proc_present with (proc := proc) by exact H.
  reflexivity.
Qed.

(** The child exited after at least the threshold: [Exited]. *)
Lemma handle_exit_late (w : World) (subproc : obj_id) (ext : string)
  (proc : ExtensionProc) (code : Z) (st : State) :
  extension_procs st !! ext = Some proc ->
  subprocess proc = subproc ->
  os w subproc = ExitedWith code ->
  PrimFloat.ltb (uptime_of w proc) instant_threshold = false ->
  handle_exit pf w subproc ext st
  = (Ok tt, diagnosed ext Exited (msg_exited (float_str pf (uptime_of w proc)) ext code) st).
Proof.
  intros H Hid Hos Hup. unfold handle_exit. step_monad. rewrite H, Hos.
  cbn [Subprocess.get_if_signaled andb Subprocess.get_exit_status]. cbn beta iota.
  rewrite H, Hid, Pos.eqb_refl. cbn [negb]. fold (uptime_of w proc). rewrite Hup.
  rewrite set_extension_error_runs.
  rewrite pop_proc_present with (proc := proc) by exact H.
  reflexivity.
Qed.

(** Instant exit, no marker in the retained line: [Terminated]. *)
Lemma handle_exit_instant_plain (w : World) (subproc : obj_id) (ext : string)
  (proc : ExtensionProc) (code : Z) (st : State) :
  extension_procs st !! ext = Some proc ->
  subprocess proc = subproc ->
  os w subproc = ExitedWith code ->
  PrimFloat.ltb (uptime_of w proc) instant_threshold = true ->
  Py.contains "ModuleNotFoundError" (lasterr_of proc) = false ->
  handle_exit pf w subproc ext st
  = (Ok tt, diagnosed ext Terminated (msg_instant ext code) st).
Proof.
  intros H Hid Hos Hup Hm. unfold handle_exit. step_monad. rewrite H, Hos.
  cbn [Subprocess.get_if_signaled andb Subprocess.get_exit_status]. cbn beta iota.
  rewrite H, Hid, Pos.eqb_refl. cbn [negb]. fold (uptime_of w proc). rewrite Hup.
  fold (lasterr_of proc). rewrite Hm.
  rewrite set_extension_error_runs.
  rewrite pop_proc_present with (proc := proc) by exact H.
  reflexivity.
Qed.

(** Instant exit, marker present: what happens depends on element 1 of the
    quote-split of the line. *)
Lemma handle_exit_instant_module (w : World) (subproc : obj_id) (ext : string)
  (proc : ExtensionProc) (code : Z) (st : State) :
  extension_procs st !! ext = Some proc ->
  subprocess proc = subproc ->
  os w subproc = ExitedWith code ->
  PrimFloat.ltb (uptime_of w proc) instant_threshold = true ->
  Py.contains "ModuleNotFoundError" (lasterr_of proc) = true ->
  handle_exit pf w subproc ext st
  = match Py.split squote (lasterr_of proc) !! 1%nat with
    | None => (Raised (Py.IndexError "list index out of range"), st)
    | Some package_name =>
        if String.eqb package_name "ulauncher"
        then (Ok tt, diagnosed ext Incompatible (msg_instant ext code) st)
        else if Py.truthy package_name
             then (Ok tt, diagnosed ext MissingModule package_name st)
             else (Ok tt, removed ext st)
    end.
Proof.
  intros H Hid Hos Hup Hm. unfold handle_exit. step_monad. rewrite H, Hos.
  cbn [Subprocess.get_if_signaled andb Subprocess.get_exit_status]. cbn beta iota.
  rewrite H, Hid, Pos.eqb_refl. cbn [negb]. fold (uptime_of w proc). rewrite Hup.
  fold (lasterr_of proc). rewrite Hm.
  destruct (Py.split squote (lasterr_of proc) !! 1%nat) as [package_name|]; [|reflexivity].
  destruct (String.eqb package_name "ulauncher").
  - rewrite set_extension_error_runs.
    rewrite pop_proc_present with (proc := proc) by exact H. reflexivity.
  - destruct (Py.truthy package_name).
    + rewrite set_extension_error_runs.
      rewrite pop_proc_present with (proc := proc) by exact H. reflexivity.
    + rewrite pop_proc_present with (proc := proc) by exact H. reflexivity.
Qed.

End ExitHandler.

(** ** The paths through [run] *)

Section Run.

Variable pf : Platform.


Lemma run_already_running (w : World) (ext path : string) (st : State) :
  running st ext = true ->
  run pf w ext path st = (Ok tt, st).
Proof.
  intros H. unfold run. step_monad. rewrite H. reflexivity.
Qed.

Lemma run_load_raised (w : World) (ext path : string) (st : State) (e : ManifestExn) :
  running st ext = false ->
  load w path = LoadRaised e ->
  run pf w ext path st = (Raised (uncaught e), reset ext st).
Proof.
  intros H Hl. unfold run. step_monad. rewrite H. cbn beta iota.
  rewrite Hl. reflexivity.
Qed.

Lemma run_manifest_failure (w : World) (ext path : string) (st : State)
  (manifest : ExtensionManifest) (failure : ManifestExn) :
  running st ext = false ->
  load w path = Loaded manifest ->
  manifest_checks manifest = Some failure ->
  run pf w ext path st
  = (Ok tt,
     match failure with
     | ExtensionManifestError err => recorded ext Invalid err (reset ext st)
     | ExtensionIncompatibleWarning err => recorded ext Incompatible err (reset ext st)
     end).
Proof.
  intros H Hl Hm. unfold run. step_monad. rewrite H. cbn beta iota.
  rewrite Hl, Hm. destruct failure; reflexivity.
Qed.

Lemma run_spawn_failed (w : World) (ext path msg : string) (st : State)
  (manifest : ExtensionManifest) :
  running st ext = false ->
  load w path = Loaded manifest ->
  manifest_checks manifest = None ->
  spawnv w (child_cmd pf path) (child_env pf (verbose st) manifest ext) = SpawnFailed msg ->
  run pf w ext path st = (Raised (Py.GLibError msg), reset ext st).
Proof.
  intros H Hl Hm Hs. unfold run. step_monad. rewrite H. cbn beta iota.
  rewrite Hl, Hm. cbn [verbose reset set_db]. rewrite Hs. reflexivity.
Qed.

Lemma run_without_pipe (w : World) (ext path : string) (subproc : obj_id) (st : State)
  (manifest : ExtensionManifest) :
  running st ext = false ->
  load w path = Loaded manifest ->
  manifest_checks manifest = None ->
  spawnv w (child_cmd pf path) (child_env pf (verbose st) manifest ext)
    = Spawned subproc None ->
  run pf w ext path st
  = (Raised (Py.AssertionError
               "Subprocess must be created with Gio.SubprocessFlags.STDERR_PIPE"),
     log_event
       (EvSpawn (child_cmd pf path) (child_env pf (verbose st) manifest ext) subproc)
       (reset ext st)).
Proof.
  intros H Hl Hm Hs. unfold run. step_monad. rewrite H. cbn beta iota.
  rewrite Hl, Hm. cbn [verbose reset set_db]. rewrite Hs. reflexivity.
Qed.

Lemma run_spawned (w : World) (ext path : string) (subproc pipe : obj_id) (st : State)
  (manifest : ExtensionManifest) :
  running st ext = false ->
  load w path = Loaded manifest ->
  manifest_checks manifest = None ->
  spawnv w (child_cmd pf path) (child_env pf (verbose st) manifest ext)
    = Spawned subproc (Some pipe) ->
  let proc := mk_proc ext subproc (time w) (DataInputStream_new pipe) (Py.deque_new 1) in
  run pf w ext path st
  = (Ok tt,
     log_event (EvReadLineAsync (DataInputStream_new pipe) ext)
       (log_event (EvWaitAsync subproc ext)
          (log_event (EvRegistered ext)
             (set_procs (insert ext proc)
                (log_event
                   (EvSpawn (child_cmd pf path)
                      (child_env pf (verbose st) manifest ext) subproc)
                   (reset ext st)))))).
Proof.
  intros H Hl Hm Hs. unfold run. step_monad. rewrite H. cbn beta iota.
  rewrite Hl, Hm. cbn [verbose reset set_db]. rewrite Hs. reflexivity.
Qed.

End Run.

(** ** [stop], the delayed check and the stderr listener *)

Lemma stop_not_running (ext : string) (st : State) :
  extension_procs st !! ext = None ->
  stop ext st = (Ok tt, st).
Proof.
  intros H. unfold stop. step_monad. rewrite H. reflexivity.
Qed.

Lemma stop_running (ext : string) (proc : ExtensionProc) (st : State) :
  extension_procs st !! ext = Some proc ->
  stop ext st
  = (Ok tt,
     set_timers (fun ts => (ts ++ [(termination_delay, proc)])%list)
       (log_event (EvSendSignal (subprocess proc) SIGTERM) (removed ext st))).
Proof.
  intros H. unfold stop. step_monad. rewrite H.
  rewrite pop_proc_present with (proc := proc) by exact H. reflexivity.
Qed.

Lemma confirm_termination_alive (w : World) (proc : ExtensionProc) (pid : positive)
  (st : State) :
  os w (subprocess proc) = Alive pid ->
  confirm_termination w proc st
  = (Ok tt, log_event (EvSendSignal (subprocess proc) SIGKILL) st).
Proof.
  intros H. unfold confirm_termination. rewrite H, identifier_of_alive_truthy.
  reflexivity.
Qed.

Lemma confirm_termination_gone (w : World) (proc : ExtensionProc) (st : State) :
  (forall pid, os w (subprocess proc) <> Alive pid) ->
  confirm_termination w proc st = (Ok tt, st).
Proof.
  intros H. unfold confirm_termination.
  destruct (os w (subprocess proc)) as [pid| |]; [destruct (H pid); reflexivity | |];
    reflexivity.
Qed.

Lemma handle_stderr_absent (stream : DataInputStream) (output : option string)
  (ext : string) (st : State) :
  extension_procs st !! ext = None ->
  handle_stderr stream output ext st
  = (Ok tt,
     if Py.truthy_opt output
     then log_event (EvPrint (default EmptyString output)) st
     else st).
Proof.
  intros H. unfold handle_stderr. step_monad.
  destruct (Py.truthy_opt output); cbn beta iota; cbn [extension_procs log_event];
    rewrite H; reflexivity.
Qed.

Lemma handle_stderr_line (stream : DataInputStream) (line ext : string)
  (proc : ExtensionProc) (st : State) :
  extension_procs st !! ext = Some proc ->
  Py.truthy line = true ->
  handle_stderr stream (Some line) ext st
  = (Ok tt,
     log_event (EvReadLineAsync (error_stream proc) (ext_id proc))
       (set_procs
          (insert ext (with_recent_errors (Py.deque_append (recent_errors proc) line) proc))
          (log_event (EvPrint line) st))).
Proof.
  intros H Ht. unfold handle_stderr. step_monad.
  cbn [Py.truthy_opt default]. rewrite Ht. cbn beta iota.
  cbn [extension_procs log_event]. rewrite H. reflexivity.
Qed.

Lemma handle_stderr_nothing (stream : DataInputStream) (output : option string)
  (ext : string) (proc : ExtensionProc) (st : State) :
  extension_procs st !! ext = Some proc ->
  Py.truthy_opt output = false ->
  handle_stderr stream output ext st
  = (Ok tt, log_event (EvReadLineAsync (error_stream proc) (ext_id proc)) st).
Proof.
  intros H Ht. unfold handle_stderr. step_monad. rewrite Ht. cbn beta iota.
  rewrite H. reflexivity.
Qed.

(** * The specified behaviour of the supervisor *)

(** ** Manifest failures (C2) *)

(** C2 fails on the code.  The manifest of the extension cannot be loaded:
    [ExtensionManifest.load] raises the validation error.  The call sits
    before the [try] whose handlers classify exactly this exception when
    [validate()] raises it, so here the exception leaves [run]: the record of
    the extension is the empty one of the reset, in memory, and the saved one
    is untouched; neither is [Invalid].  Nothing was spawned and nothing was
    saved.  With the same error raised by [validate()] (the world
    [Demo.w_invalid]) the record is [Invalid] with the message, saved. *)
Theorem run_load_failure_not_classified :
  let call := run Demo.platform Demo.w_load_invalid Demo.ext Demo.path in
  running Demo.initial Demo.ext = false
  /\ load Demo.w_load_invalid Demo.path
     = LoadRaised (ExtensionManifestError "name is not provided")
  /\ outcome call Demo.initial = Raised (Py.ExtensionManifestError "name is not provided")
  /\ records (ext_db (exec call Demo.initial)) !! Demo.ext = Some (mk_record "" "")
  /\ saved (ext_db (exec call Demo.initial)) !! Demo.ext = Some (mk_record "" "")
  /\ extension_procs (exec call Demo.initial) = extension_procs Demo.initial
  /\ trace (exec call Demo.initial) = trace Demo.initial
  /\ saved (ext_db (exec (run Demo.platform Demo.w_invalid Demo.ext Demo.path) Demo.initial))
       !! Demo.ext
     = Some (mk_record "name is not provided" "Invalid").
Proof.
  cbn zeta. repeat split; vm_compute; reflexivity.
Qed.

(** When [run] gets as far as checking a loaded manifest (the extension is not
    already running, [load] returned) and [validate()] or
    [check_compatibility()] raises, [run] returns normally; a validation error
    leaves the record of the extension [Invalid] with the error's message and
    a compatibility warning leaves it [Incompatible] with the warning's
    message, in memory and saved; the table is as before and the only event is
    the save, so no child was spawned. *)
Theorem run_manifest_failure_classified (pf : Platform) (w : World)
  (ext path : string) (manifest : ExtensionManifest) (failure : ManifestExn)
  (st : State) :
  running st ext = false ->
  load w path = Loaded manifest ->
  manifest_checks manifest = Some failure ->
  let st' := exec (run pf w ext path) st in
  let diagnosis :=
    match failure with
    | ExtensionManifestError msg => mk_record msg "Invalid"
    | ExtensionIncompatibleWarning msg => mk_record msg "Incompatible"
    end in
  outcome (run pf w ext path) st = Ok tt
  /\ records (ext_db st') !! ext = Some diagnosis
  /\ saved (ext_db st') !! ext = Some diagnosis
  /\ extension_procs st' = extension_procs st
  /\ trace st' = (trace st ++ [EvDbSave])%list.
Proof.
  intros Hrun Hload Hchk. cbn zeta. unfold exec, outcome.
  rewrite (run_manifest_failure pf w ext path st manifest failure Hrun Hload Hchk).
  destruct failure as [msg|msg]; cbn [fst snd];
    (split; [reflexivity|]);
    (split; [apply recorded_record|]);
    (split; [apply recorded_record|]);
    split; reflexivity.
Qed.

Lemma run_manifest_failure_classified_witness :
  (running Demo.initial Demo.ext = false
   /\ load Demo.w_invalid Demo.path = Loaded Demo.manifest_invalid
   /\ manifest_checks Demo.manifest_invalid
      = Some (ExtensionManifestError "name is not provided")
   /\ load Demo.w_incompatible Demo.path = Loaded Demo.manifest_incompatible
   /\ manifest_checks Demo.manifest_incompatible
      = Some (ExtensionIncompatibleWarning "requires API 3"))
  /\ saved (ext_db (exec (run Demo.platform Demo.w_invalid Demo.ext Demo.path) Demo.initial))
       !! Demo.ext
     = Some (mk_record "name is not provided" "Invalid")
  /\ saved (ext_db (exec (run Demo.platform Demo.w_incompatible Demo.ext Demo.path)
                      Demo.initial)) !! Demo.ext
     = Some (mk_record "requires API 3" "Incompatible").
Proof.
  split; [repeat split; vm_compute; reflexivity|].
  split.
  - apply (run_manifest_failure_classified Demo.platform Demo.w_invalid Demo.ext Demo.path
             Demo.manifest_invalid
             (ExtensionManifestError "name is not provided") Demo.initial);
      vm_compute; reflexivity.
  - apply (run_manifest_failure_classified Demo.platform Demo.w_incompatible Demo.ext
             Demo.path Demo.manifest_incompatible
             (ExtensionIncompatibleWarning "requires API 3") Demo.initial);
      vm_compute; reflexivity.
Defined.

(** ** Stopping (C7, C5) *)

(** C7.  Stopping a running extension returns with the extension no longer
    running.  The trace of [stop] shows the order: the record leaves the table,
    then [SIGTERM] is sent to the record's subprocess.  [stop] takes no
    [World]: it does not look at the operating system before it returns. *)
Theorem stop_clears_running_before_signal (ext : string) (st : State) :
  running st ext = true ->
  exists proc,
    extension_procs st !! ext = Some proc
    /\ outcome (stop ext) st = Ok tt
    /\ running (exec (stop ext) st) ext = false
    /\ trace (exec (stop ext) st)
       = (trace st ++ [EvRemoved ext; EvSendSignal (subprocess proc) SIGTERM])%list.
Proof.
  intros Hrun. apply running_true_lookup in Hrun as [proc Hproc].
  exists proc. unfold exec, outcome. rewrite (stop_running ext proc st Hproc).
  cbn [fst snd]. repeat split.
  - exact Hproc.
  - apply running_false_lookup. cbn. apply lookup_delete_eq.
  - cbn. rewrite <- app_assoc. reflexivity.
Qed.

Lemma stop_clears_running_before_signal_witness :
  running Demo.started Demo.ext = true
  /\ exists proc,
       extension_procs Demo.started !! Demo.ext = Some proc
       /\ outcome (stop Demo.ext) Demo.started = Ok tt
       /\ running (exec (stop Demo.ext) Demo.started) Demo.ext = false
       /\ trace (exec (stop Demo.ext) Demo.started)
          = (trace Demo.started
               ++ [EvRemoved Demo.ext; EvSendSignal (subprocess proc) SIGTERM])%list.
Proof.
  split; [vm_compute; reflexivity|].
  apply (stop_clears_running_before_signal Demo.ext Demo.started).
  vm_compute; reflexivity.
Defined.

(** Counting signals in a trace. *)
Lemma signals_sent_app (h : obj_id) (sig : Z) (events more : list Event) :
  signals_sent h sig (events ++ more)%list
  = (signals_sent h sig events + signals_sent h sig more)%nat.
Proof. unfold signals_sent. rewrite List.filter_app, length_app. reflexivity. Qed.

Lemma signals_sent_one (h h' : obj_id) (sig sig' : Z) :
  signals_sent h sig [EvSendSignal h' sig']
  = if Pos.eqb h' h && Z.eqb sig' sig then 1%nat else 0%nat.
Proof. unfold signals_sent. cbn. destruct (_ && _); reflexivity. Qed.

(** Firing the oldest pending timer runs its check on the state without that
    timer: a timer fires once. *)
Lemma fire_timer_head (w : World) (delay : float) (proc : ExtensionProc)
  (rest : list (float * ExtensionProc)) (st : State) :
  timers st = (delay, proc) :: rest ->
  fire_timer w st = confirm_termination w proc (set_timers (fun _ => rest) st).
Proof.
  intros H. unfold fire_timer. step_monad. rewrite H. reflexivity.
Qed.

Lemma confirm_termination_timers (w : World) (proc : ExtensionProc) (st : State) :
  timers (exec (confirm_termination w proc) st) = timers st.
Proof.
  unfold exec, confirm_termination. destruct (Py.truthy_opt _); reflexivity.
Qed.

(** C5.  Stopping a running extension queues exactly one delayed check, for
    the record it removed.  Whenever that check runs: if the subprocess is
    still alive it returns after sending [SIGKILL] once, the trace grows by
    exactly that one signal and nothing else changes; if the subprocess has
    terminated it sends nothing, changes nothing and returns.  When no other
    check was pending, firing the timer runs this check and leaves none
    pending, so what left the runner from [stop] on is the removal, one
    [SIGTERM] and, only for a subprocess still alive, one [SIGKILL]; a timer
    firing after that finds nothing to do. *)
Theorem stop_schedules_one_check (ext : string) (proc : ExtensionProc) (st : State) :
  extension_procs st !! ext = Some proc ->
  timers (exec (stop ext) st) = (timers st ++ [(termination_delay, proc)])%list
  /\ (forall (w : World) (later : State) (pid : positive),
        os w (subprocess proc) = Alive pid ->
        confirm_termination w proc later
        = (Ok tt, log_event (EvSendSignal (subprocess proc) SIGKILL) later)
        /\ trace (exec (confirm_termination w proc) later)
           = (trace later ++ [EvSendSignal (subprocess proc) SIGKILL])%list
        /\ signals_sent (subprocess proc) SIGKILL
             (trace (exec (confirm_termination w proc) later))
           = S (signals_sent (subprocess proc) SIGKILL (trace later))
        /\ extension_procs (exec (confirm_termination w proc) later)
           = extension_procs later
        /\ ext_db (exec (confirm_termination w proc) later) = ext_db later)
  /\ (forall (w : World) (later : State),
        (forall pid, os w (subprocess proc) <> Alive pid) ->
        confirm_termination w proc later = (Ok tt, later))
  /\ (forall w : World,
        timers st = [] ->
        fire_timer w (exec (stop ext) st)
        = confirm_termination w proc (set_timers (fun _ => []) (exec (stop ext) st))
        /\ timers (exec (fire_timer w) (exec (stop ext) st)) = []
        /\ trace (exec (fire_timer w) (exec (stop ext) st))
           = (trace st
                ++ [EvRemoved ext; EvSendSignal (subprocess proc) SIGTERM]
                ++ match os w (subprocess proc) with
                   | Alive _ => [EvSendSignal (subprocess proc) SIGKILL]
                   | _ => []
                   end)%list
        /\ forall w' : World,
             fire_timer w' (exec (fire_timer w) (exec (stop ext) st))
             = (Ok tt, exec (fire_timer w) (exec (stop ext) st))).
Proof.
  intros Hproc.
  assert (Hq : timers (exec (stop ext) st)
               = (timers st ++ [(termination_delay, proc)])%list)
    by (unfold exec; rewrite (stop_running ext proc st Hproc); reflexivity).
  assert (Htr : trace (exec (stop ext) st)
                = (trace st ++ [EvRemoved ext; EvSendSignal (subprocess proc) SIGTERM])%list).
  { unfold exec. rewrite (stop_running ext proc st Hproc). cbn.
    rewrite <- app_assoc. reflexivity. }
  split; [exact Hq|]. split; [|split].
  - intros w later pid Halive.
    pose proof (confirm_termination_alive w proc pid later Halive) as Hc.
    split; [exact Hc|]. unfold exec. rewrite Hc. cbn [snd log_event trace extension_procs ext_db].
    split; [reflexivity|]. split; [|split; reflexivity].
    rewrite signals_sent_app, signals_sent_one.
    rewrite Pos.eqb_refl, Z.eqb_refl. cbn. lia.
  - intros w later Hgone. exact (confirm_termination_gone w proc later Hgone).
  - intros w Hnone. rewrite Hnone in Hq. cbn [app] in Hq.
    pose proof (fire_timer_head w termination_delay proc [] (exec (stop ext) st) Hq)
      as Hfire.
    split; [exact Hfire|].
    assert (Ht : timers (exec (fire_timer w) (exec (stop ext) st)) = []).
    { unfold exec at 1. rewrite Hfire.
      exact (confirm_termination_timers w proc
               (set_timers (fun _ => []) (exec (stop ext) st))). }
    split; [exact Ht|]. split.
    + unfold exec at 1. rewrite Hfire.
      destruct (os w (subprocess proc)) as [pid| |] eqn:Hos.
      * rewrite (confirm_termination_alive w proc pid _ Hos).
        cbn [snd log_event trace set_timers]. rewrite Htr, <- app_assoc. reflexivity.
      * rewrite (confirm_termination_gone w proc).
        -- cbn [snd trace set_timers]. rewrite Htr. reflexivity.
        -- intros pid. rewrite Hos. discriminate.
      * rewrite (confirm_termination_gone w proc).
        -- cbn [snd trace set_timers]. rewrite Htr. reflexivity.
        -- intros pid. rewrite Hos. discriminate.
    + intros w'. unfold fire_timer at 1. step_monad. rewrite Ht. reflexivity.
Qed.

Lemma stop_schedules_one_check_witness :
  extension_procs Demo.started !! Demo.ext = Some Demo.first_proc
  /\ timers (exec (stop Demo.ext) Demo.started)
     = [(termination_delay, Demo.first_proc)]
  /\ (confirm_termination Demo.w_start Demo.first_proc Demo.stopped
      = (Ok tt, log_event (EvSendSignal 1%positive SIGKILL) Demo.stopped)
      /\ trace (exec (confirm_termination Demo.w_start Demo.first_proc) Demo.stopped)
         = (trace Demo.stopped ++ [EvSendSignal 1%positive SIGKILL])%list
      /\ signals_sent 1%positive SIGKILL
           (trace (exec (confirm_termination Demo.w_start Demo.first_proc) Demo.stopped))
         = S (signals_sent 1%positive SIGKILL (trace Demo.stopped))
      /\ extension_procs (exec (confirm_termination Demo.w_start Demo.first_proc)
                            Demo.stopped)
         = extension_procs Demo.stopped
      /\ ext_db (exec (confirm_termination Demo.w_start Demo.first_proc) Demo.stopped)
         = ext_db Demo.stopped)
  /\ confirm_termination Demo.w_exit_late Demo.first_proc Demo.stopped
     = (Ok tt, Demo.stopped)
  /\ trace (exec (fire_timer Demo.w_start) (exec (stop Demo.ext) Demo.started))
     = (trace Demo.started
          ++ [EvRemoved Demo.ext; EvSendSignal 1%positive SIGTERM;
              EvSendSignal 1%positive SIGKILL])%list
  /\ trace (exec (fire_timer Demo.w_exit_late) (exec (stop Demo.ext) Demo.started))
     = (trace Demo.started
          ++ [EvRemoved Demo.ext; EvSendSignal 1%positive SIGTERM])%list.
Proof.
  assert (H : extension_procs Demo.started !! Demo.ext = Some Demo.first_proc)
    by (vm_compute; reflexivity).
  split; [exact H|].
  destruct (stop_schedules_one_check Demo.ext Demo.first_proc Demo.started H)
    as (Hq & Halive & Hgone & Hfire).
  split; [exact Hq|]. split; [|split; [|split]].
  - exact (Halive Demo.w_start Demo.stopped 4242%positive eq_refl).
  - apply Hgone. intros pid. discriminate.
  - exact (proj1 (proj2 (proj2 (Hfire Demo.w_start eq_refl)))).
  - exact (proj1 (proj2 (proj2 (Hfire Demo.w_exit_late eq_refl)))).
Defined.

(** ** A spawn without a standard-error pipe (C8) *)

(** C8.  When [run] spawns a child (the extension was not running and the
    manifest was loaded and passed) and the subprocess has no standard-error pipe, [run]
    raises [AssertionError].  No diagnosis is written: the saved database is
    as before, the in-memory record of the extension is the empty one left by
    the reset, and nothing is saved; no record is registered: the table is as
    before. *)
Theorem run_without_pipe_asserts (pf : Platform) (w : World) (ext path : string)
  (manifest : ExtensionManifest) (subproc : obj_id) (st : State) :
  running st ext = false ->
  load w path = Loaded manifest ->
  manifest_checks manifest = None ->
  spawnv w (child_cmd pf path) (child_env pf (verbose st) manifest ext)
    = Spawned subproc None ->
  let st' := exec (run pf w ext path) st in
  outcome (run pf w ext path) st
    = Raised (Py.AssertionError
                "Subprocess must be created with Gio.SubprocessFlags.STDERR_PIPE")
  /\ extension_procs st' = extension_procs st
  /\ running st' ext = false
  /\ saved (ext_db st') = saved (ext_db st)
  /\ records (ext_db st') !! ext = Some empty_record
  /\ trace st'
     = (trace st
          ++ [EvSpawn (child_cmd pf path)
                (child_env pf (verbose st) manifest ext) subproc])%list.
Proof.
  intros Hrun Hload Hchk Hspawn. cbn zeta. unfold exec, outcome.
  rewrite (run_without_pipe pf w ext path subproc st manifest Hrun Hload Hchk Hspawn).
  cbn [fst snd]. repeat split.
  - exact Hrun.
  - cbn. apply lookup_insert_eq.
Qed.

Lemma run_without_pipe_asserts_witness :
  (running Demo.initial Demo.ext = false
   /\ load Demo.w_no_pipe Demo.path = Loaded Demo.manifest_ok
   /\ manifest_checks Demo.manifest_ok = None)
  /\ outcome (run Demo.platform Demo.w_no_pipe Demo.ext Demo.path) Demo.initial
     = Raised (Py.AssertionError
                 "Subprocess must be created with Gio.SubprocessFlags.STDERR_PIPE")
  /\ running (exec (run Demo.platform Demo.w_no_pipe Demo.ext Demo.path) Demo.initial)
       Demo.ext = false.
Proof.
  split; [repeat split; vm_compute; reflexivity|].
  destruct (run_without_pipe_asserts Demo.platform Demo.w_no_pipe Demo.ext Demo.path
              Demo.manifest_ok 1%positive Demo.initial)
    as (Hraise & _ & Hstill & _); [vm_compute; reflexivity ..|].
  split; [exact Hraise | exact Hstill].
Defined.

(** ** The stderr listener (C6) *)

(** C6, as the code has it.  Whatever a completed read delivered (a line, an
    empty line, or nothing because the stream has ended), the listener prints
    a non-empty line and then issues the next read on the record's stream
    exactly when a record for the extension is in the table.  Only the absence
    of the record stops it; the end of the stream does not. *)
Theorem handle_stderr_rearms_iff_present (stream : DataInputStream)
  (output : option string) (ext : string) (st : State) :
  outcome (handle_stderr stream output ext) st = Ok tt
  /\ trace (exec (handle_stderr stream output ext) st)
     = (trace st
          ++ (if Py.truthy_opt output then [EvPrint (default EmptyString output)] else [])
          ++ match extension_procs st !! ext with
             | Some proc => [EvReadLineAsync (error_stream proc) (ext_id proc)]
             | None => []
             end)%list.
Proof.
  unfold exec, outcome.
  destruct (extension_procs st !! ext) as [proc|] eqn:Hproc.
  - destruct (Py.truthy_opt output) eqn:Hout.
    + destruct output as [line|]; [|discriminate Hout].
      rewrite (handle_stderr_line stream line ext proc st Hproc Hout).
      cbn. rewrite <- app_assoc. split; reflexivity.
    + rewrite (handle_stderr_nothing stream output ext proc st Hproc Hout).
      split; reflexivity.
  - rewrite (handle_stderr_absent stream output ext st Hproc).
    destruct (Py.truthy_opt output); cbn; rewrite ?app_nil_r; split; reflexivity.
Qed.

(** C6 as stated fails: at the end of the stream, with the record still in
    the table, the listener issues a further read. *)
Lemma handle_stderr_rearms_at_end_of_stream :
  extension_procs Demo.started !! Demo.ext = Some Demo.first_proc
  /\ trace (exec (handle_stderr (DataInputStream_new 2%positive) None Demo.ext)
              Demo.started)
     = (trace Demo.started
          ++ [EvReadLineAsync (DataInputStream_new 2%positive) Demo.ext])%list
  /\ trace (exec (handle_stderr (DataInputStream_new 2%positive) None Demo.ext)
              Demo.started)
     <> trace Demo.started.
Proof.
  split; [vm_compute; reflexivity|].
  split; [vm_compute; reflexivity|].
  vm_compute. discriminate.
Qed.

(** ** The exit handler (C9, C3, C4) *)

(** C9.  The child exited (it was not killed by a signal) within the
    threshold, its record is in the table and is the record of this
    subprocess, and the retained line contains the marker but no single
    quote.  Then the quote-split of the line has no element 1, the handler
    raises [IndexError], and the state is exactly as before: no diagnosis was
    written and the record is still in the table. *)
Theorem handle_exit_unquoted_marker_raises (pf : Platform) (w : World)
  (subproc : obj_id) (ext : string) (proc : ExtensionProc) (code : Z) (st : State) :
  extension_procs st !! ext = Some proc ->
  subprocess proc = subproc ->
  os w subproc = ExitedWith code ->
  PrimFloat.ltb (uptime_of w proc) instant_threshold = true ->
  Py.contains "ModuleNotFoundError" (lasterr_of proc) = true ->
  Py.contains (String squote EmptyString) (lasterr_of proc) = false ->
  Py.split squote (lasterr_of proc) !! 1%nat = None
  /\ handle_exit pf w subproc ext st
     = (Raised (Py.IndexError "list index out of range"), st)
  /\ running (exec (handle_exit pf w subproc ext) st) ext = true
  /\ ext_db (exec (handle_exit pf w subproc ext) st) = ext_db st.
Proof.
  intros Hproc Hid Hos Hup Hmark Hquote.
  assert (Hsplit : Py.split squote (lasterr_of proc) !! 1%nat = None)
    by (rewrite (split_without_separator _ _ Hquote); reflexivity).
  assert (Hrun : handle_exit pf w subproc ext st
                 = (Raised (Py.IndexError "list index out of range"), st)).
  { rewrite (handle_exit_instant_module pf w subproc ext proc code st
               Hproc Hid Hos Hup Hmark), Hsplit. reflexivity. }
  split; [exact Hsplit|]. split; [exact Hrun|].
  unfold exec. rewrite Hrun. cbn [snd]. split; [|reflexivity].
  apply running_true_lookup. exists proc. exact Hproc.
Qed.

Lemma handle_exit_unquoted_marker_raises_witness :
  (extension_procs (Demo.wrote Demo.line_unquoted) !! Demo.ext
     = Some (with_recent_errors (Py.mk_deque 1 [Demo.line_unquoted]) Demo.first_proc)
   /\ PrimFloat.ltb (PrimFloat.sub 100.5 100) instant_threshold = true
   /\ Py.contains "ModuleNotFoundError" Demo.line_unquoted = true
   /\ Py.contains (String squote EmptyString) Demo.line_unquoted = false)
  /\ handle_exit Demo.platform Demo.w_exit_fast 1%positive Demo.ext
       (Demo.wrote Demo.line_unquoted)
     = (Raised (Py.IndexError "list index out of range"), Demo.wrote Demo.line_unquoted).
Proof.
  split; [repeat split; vm_compute; reflexivity|].
  apply (handle_exit_unquoted_marker_raises Demo.platform Demo.w_exit_fast 1%positive
           Demo.ext
           (with_recent_errors (Py.mk_deque 1 [Demo.line_unquoted]) Demo.first_proc)
           1 (Demo.wrote Demo.line_unquoted));
    vm_compute; reflexivity.
Defined.

(** C3, as the code has it.  The child exited with a status code (it was not
    killed by a signal) within the threshold, and its record is in the table
    and is the record of this subprocess.  If the retained line does not
    contain the marker, the diagnosis is [Terminated] with the generic
    message.  If it contains the marker and the quote-split of the line has an
    element 1, that element is the module name: when it is [ulauncher] the
    diagnosis is [Incompatible] with the generic message, and when it is any
    other non-empty name the diagnosis is [MissingModule] with the name as
    message.  In each of these cases the handler returns, the diagnosis is in
    memory and saved, and the record is removed.  When the name is empty the
    record is removed and nothing is written. *)
Theorem handle_exit_instant_classified (pf : Platform) (w : World)
  (subproc : obj_id) (ext : string) (proc : ExtensionProc) (code : Z) (st : State) :
  extension_procs st !! ext = Some proc ->
  subprocess proc = subproc ->
  os w subproc = ExitedWith code ->
  PrimFloat.ltb (uptime_of w proc) instant_threshold = true ->
  (Py.contains "ModuleNotFoundError" (lasterr_of proc) = false ->
   handle_exit pf w subproc ext st
   = (Ok tt, diagnosed ext Terminated (msg_instant ext code) st))
  /\ (forall name : string,
        Py.contains "ModuleNotFoundError" (lasterr_of proc) = true ->
        Py.split squote (lasterr_of proc) !! 1%nat = Some name ->
        (name = "ulauncher" ->
         handle_exit pf w subproc ext st
         = (Ok tt, diagnosed ext Incompatible (msg_instant ext code) st))
        /\ (name <> "ulauncher" -> name <> EmptyString ->
            handle_exit pf w subproc ext st
            = (Ok tt, diagnosed ext MissingModule name st))
        /\ (name = EmptyString ->
            handle_exit pf w subproc ext st = (Ok tt, removed ext st))).
Proof.
  intros Hproc Hid Hos Hup. split.
  - intros Hmark.
    exact (handle_exit_instant_plain pf w subproc ext proc code st
             Hproc Hid Hos Hup Hmark).
  - intros name Hmark Hname.
    rewrite (handle_exit_instant_module pf w subproc ext proc code st
               Hproc Hid Hos Hup Hmark), Hname.
    split; [|split].
    + intros ->. reflexivity.
    + intros Hhost Hne.
      destruct (String.eqb_spec name "ulauncher") as [Heq|_]; [contradiction|].
      destruct name; [contradiction Hne; reflexivity | reflexivity].
    + intros ->. reflexivity.
Qed.

(** The example of the specification: the child writes the
    [ModuleNotFoundError] line for [requests] and exits with status 1 after
    half a second. *)
Lemma handle_exit_instant_classified_witness :
  (extension_procs (Demo.wrote Demo.line_requests) !! Demo.ext
     = Some (with_recent_errors (Py.mk_deque 1 [Demo.line_requests]) Demo.first_proc)
   /\ PrimFloat.ltb (PrimFloat.sub 100.5 100) instant_threshold = true
   /\ Py.contains "ModuleNotFoundError" Demo.line_requests = true
   /\ Py.split squote Demo.line_requests !! 1%nat = Some "requests")
  /\ handle_exit Demo.platform Demo.w_exit_fast 1%positive Demo.ext
       (Demo.wrote Demo.line_requests)
     = (Ok tt, diagnosed Demo.ext MissingModule "requests" (Demo.wrote Demo.line_requests)).
Proof.
  split; [repeat split; vm_compute; reflexivity|].
  destruct (handle_exit_instant_classified Demo.platform Demo.w_exit_fast 1%positive
              Demo.ext
              (with_recent_errors (Py.mk_deque 1 [Demo.line_requests]) Demo.first_proc)
              1 (Demo.wrote Demo.line_requests))
    as [_ Hmodule]; [vm_compute; reflexivity ..|].
  destruct (Hmodule "requests") as (_ & Hmissing & _); [vm_compute; reflexivity ..|].
  apply Hmissing; discriminate.
Defined.

(** C3 as stated fails on two inputs with a present, matching record and an
    uptime of half a second.  First, the retained line has the marker and an
    empty quoted name: the name is not [ulauncher], yet no [MissingModule]
    diagnosis is written, the database is untouched and the record is
    removed.  Second, the child was killed by a signal and its retained line
    names the missing module [requests]: the diagnosis is [Terminated] with
    the signal message, not [MissingModule]. *)
Lemma handle_exit_instant_not_always_classified :
  (Py.contains "ModuleNotFoundError" Demo.line_empty_name = true
   /\ Py.split squote Demo.line_empty_name !! 1%nat = Some EmptyString
   /\ handle_exit Demo.platform Demo.w_exit_fast 1%positive Demo.ext
        (Demo.wrote Demo.line_empty_name)
      = (Ok tt, removed Demo.ext (Demo.wrote Demo.line_empty_name))
   /\ Db.current_error Demo.ext
        (ext_db (exec (handle_exit Demo.platform Demo.w_exit_fast 1%positive Demo.ext)
                   (Demo.wrote Demo.line_empty_name)))
      <> "MissingModule")
  /\ (Py.split squote Demo.line_requests !! 1%nat = Some "requests"
      /\ handle_exit Demo.platform Demo.w_killed_fast 1%positive Demo.ext
           (Demo.wrote Demo.line_requests)
         = (Ok tt, diagnosed Demo.ext Terminated (msg_signal Demo.ext 9)
                     (Demo.wrote Demo.line_requests))
      /\ Db.current_error Demo.ext
           (ext_db (exec (handle_exit Demo.platform Demo.w_killed_fast 1%positive Demo.ext)
                      (Demo.wrote Demo.line_requests)))
         <> "MissingModule").
Proof.
  split.
  - split; [vm_compute; reflexivity|].
    split; [vm_compute; reflexivity|].
    split; [vm_compute; reflexivity|].
    vm_compute. discriminate.
  - split; [vm_compute; reflexivity|].
    split; [vm_compute; reflexivity|].
    vm_compute. discriminate.
Qed.

(** C4, as the code has it.  The child exited with a status code (it was not
    killed by a signal) after an uptime of at least one second, and its record
    is in the table and is the record of this subprocess.  Then the handler
    returns, the diagnosis is [Exited], in memory and saved, its message holds
    the exit code and the uptime, and the record is removed. *)
Theorem handle_exit_late_classified (pf : Platform) (w : World)
  (subproc : obj_id) (ext : string) (proc : ExtensionProc) (code : Z) (st : State) :
  extension_procs st !! ext = Some proc ->
  subprocess proc = subproc ->
  os w subproc = ExitedWith code ->
  PrimFloat.leb instant_threshold (uptime_of w proc) = true ->
  let st' := exec (handle_exit pf w subproc ext) st in
  let message :=
    "Extension " ++ dquote ++ ext ++ dquote ++ " exited with code " ++ Py.str_int code
      ++ " after " ++ float_str pf (uptime_of w proc) ++ " seconds." in
  handle_exit pf w subproc ext st = (Ok tt, diagnosed ext Exited message st)
  /\ records (ext_db st') !! ext = Some (mk_record message "Exited")
  /\ saved (ext_db st') !! ext = Some (mk_record message "Exited")
  /\ running st' ext = false.
Proof.
  intros Hproc Hid Hos Hup. cbn zeta.
  apply float_leb_not_ltb in Hup.
  unfold exec.
  rewrite (handle_exit_late pf w subproc ext proc code st Hproc Hid Hos Hup).
  cbn [snd]. fold (msg_exited (float_str pf (uptime_of w proc)) ext code).
  split; [reflexivity|].
  destruct (diagnosed_facts ext Exited
              (msg_exited (float_str pf (uptime_of w proc)) ext code) st)
    as (Hr & Hm & Hs).
  split; [exact Hm|]. split; [exact Hs | exact Hr].
Qed.

(** The example of the specification: status 0 after 5.5 seconds. *)
Lemma handle_exit_late_classified_witness :
  (extension_procs Demo.started !! Demo.ext = Some Demo.first_proc
   /\ PrimFloat.leb 1 (uptime_of Demo.w_exit_late Demo.first_proc) = true
   /\ PrimFloat.leb 5 (uptime_of Demo.w_exit_late Demo.first_proc) = true)
  /\ saved (ext_db (exec (handle_exit Demo.platform Demo.w_exit_late 1%positive Demo.ext)
                      Demo.started)) !! Demo.ext
     = Some (mk_record
               ("Extension " ++ dquote ++ "com.example.demo" ++ dquote
                  ++ " exited with code 0 after 5.5 seconds.")
               "Exited").
Proof.
  split; [repeat split; vm_compute; reflexivity|].
  destruct (handle_exit_late_classified Demo.platform Demo.w_exit_late 1%positive
              Demo.ext Demo.first_proc 0 Demo.started)
    as (_ & _ & Hsaved & _); [vm_compute; reflexivity ..|].
  exact Hsaved.
Defined.

(** C4 as stated fails: a child killed by signal 9 after 5.5 seconds, with a
    present and matching record, is diagnosed [Terminated] with the signal
    message, not [Exited]. *)
Lemma handle_exit_late_signaled_is_terminated :
  extension_procs Demo.started !! Demo.ext = Some Demo.first_proc
  /\ PrimFloat.leb 1 (uptime_of Demo.w_killed_late Demo.first_proc) = true
  /\ handle_exit Demo.platform Demo.w_killed_late 1%positive Demo.ext Demo.started
     = (Ok tt, diagnosed Demo.ext Terminated (msg_signal Demo.ext 9) Demo.started)
  /\ Db.persisted_error Demo.ext
       (ext_db (exec (handle_exit Demo.platform Demo.w_killed_late 1%positive Demo.ext)
                  Demo.started))
     <> "Exited".
Proof.
  split; [vm_compute; reflexivity|].
  split; [vm_compute; reflexivity|].
  split; [vm_compute; reflexivity|].
  vm_compute. discriminate.
Qed.

(** ** What is saved when [run] succeeds (C1) *)

(** A successful [run] never saves: the durable copy of the database is what
    it was, whatever error it holds for the extension. *)
Lemma run_spawned_saves_nothing (pf : Platform) (w : World) (ext path : string)
  (manifest : ExtensionManifest) (subproc pipe : obj_id) (st : State) :
  running st ext = false ->
  load w path = Loaded manifest ->
  manifest_checks manifest = None ->
  spawnv w (child_cmd pf path) (child_env pf (verbose st) manifest ext)
    = Spawned subproc (Some pipe) ->
  let st' := exec (run pf w ext path) st in
  outcome (run pf w ext path) st = Ok tt
  /\ running st' ext = true
  /\ Db.current_error ext (ext_db st') = EmptyString
  /\ saved (ext_db st') = saved (ext_db st).
Proof.
  intros Hrun Hload Hchk Hspawn. cbn zeta. unfold exec, outcome.
  rewrite (run_spawned pf w ext path subproc pipe st manifest Hrun Hload Hchk Hspawn).
  cbn [fst snd]. split; [reflexivity|]. split; [|split; [|reflexivity]].
  - apply running_true_lookup. eexists. cbn. apply lookup_insert_eq.
  - unfold Db.current_error. cbn. rewrite lookup_insert_eq. reflexivity.
Qed.

(** C1 fails on the code.  The extension ran once and exited with status 0
    after 5.5 seconds, which was diagnosed [Exited] and saved.  It is started
    again and [run] returns normally: now its record is registered and the
    saved error type is still [Exited].  The reset reached the in-memory
    record only. *)
Theorem run_keeps_saved_error_while_running :
  let st := Demo.exited_once in
  let st' := exec (run Demo.platform Demo.w_start_again Demo.ext Demo.path) st in
  running st Demo.ext = false
  /\ Db.persisted_error Demo.ext (ext_db st) = "Exited"
  /\ outcome (run Demo.platform Demo.w_start_again Demo.ext Demo.path) st = Ok tt
  /\ running st' Demo.ext = true
  /\ Db.persisted_error Demo.ext (ext_db st') = "Exited"
  /\ Db.current_error Demo.ext (ext_db st') = EmptyString.
Proof.
  cbn zeta. repeat split; vm_compute; reflexivity.
Qed.

(** ** A stop followed by the exit notification (C10) *)

(** When the notification of the stopped child is handled in the state [stop]
    left, whatever the operating system reports, nothing is written: the
    state, and so the database, is unchanged. *)
Lemma stop_then_exit_is_silent (pf : Platform) (w : World) (subproc : obj_id)
  (ext : string) (st : State) :
  handle_exit pf w subproc ext (exec (stop ext) st) = (Ok tt, exec (stop ext) st)
  /\ ext_db (exec (stop ext) st) = ext_db st.
Proof.
  destruct (extension_procs st !! ext) as [proc|] eqn:Hproc.
  - unfold exec. rewrite (stop_running ext proc st Hproc). cbn [snd]. split.
    + apply handle_exit_absent. cbn. apply lookup_delete_eq.
    + reflexivity.
  - unfold exec. rewrite (stop_not_running ext st Hproc). cbn [snd]. split.
    + apply handle_exit_absent. exact Hproc.
    + reflexivity.
Qed.

(** C10 fails on the code.  The extension is running as subprocess 1; it is
    stopped and at once started again, as subprocess 3; then the notification
    arrives that subprocess 1 died of the [SIGTERM] that [stop] sent.  The
    handler's signaled branch finds the record of subprocess 3 and does not
    compare identities: it saves a [Terminated] diagnosis for the extension
    and removes the record of the new, live child. *)
Theorem stop_restart_exit_writes_diagnosis :
  let st := Demo.restarted in
  let st' := exec (handle_exit Demo.platform Demo.w_old_died 1%positive Demo.ext) st in
  (running Demo.started Demo.ext = true
   /\ Db.persisted_error Demo.ext (ext_db Demo.started) = EmptyString
   /\ running Demo.stopped Demo.ext = false)
  /\ (subprocess <$> extension_procs st !! Demo.ext) = Some 3%positive
  /\ os Demo.w_old_died 3%positive = Alive 4243
  /\ outcome (handle_exit Demo.platform Demo.w_old_died 1%positive Demo.ext) st = Ok tt
  /\ saved (ext_db st') !! Demo.ext
     = Some (mk_record (msg_signal Demo.ext SIGTERM) "Terminated")
  /\ running st' Demo.ext = false.
Proof.
  cbn zeta. repeat split; vm_compute; reflexivity.
Qed.

(** * Invariants of the runner *)

(** Every way [handle_exit] can end: nothing changed, a diagnosis written and
    the record removed, the record removed without a diagnosis, or an
    exception with nothing changed. *)
Lemma handle_exit_cases (pf : Platform) (w : World) (subproc : obj_id) (ext : string)
  (st : State) :
  handle_exit pf w subproc ext st = (Ok tt, st)
  \/ (exists error message,
        is_Some (extension_procs st !! ext)
        /\ handle_exit pf w subproc ext st = (Ok tt, diagnosed ext error message st))
  \/ (is_Some (extension_procs st !! ext)
      /\ handle_exit pf w subproc ext st = (Ok tt, removed ext st))
  \/ (exists e, handle_exit pf w subproc ext st = (Raised e, st)).
Proof.
  destruct (extension_procs st !! ext) as [proc|] eqn:Hproc;
    [|left; apply handle_exit_absent; exact Hproc].
  assert (Hsome : is_Some (Some proc)) by (eexists; reflexivity).
  unfold handle_exit. step_monad. rewrite Hproc.
  change (bool_decide (is_Some (Some proc))) with true. rewrite andb_true_r.
  destruct (Subprocess.get_if_signaled (os w subproc)); cbn beta iota.
  - right; left. eexists _, _. split; [exact Hsome|].
    rewrite set_extension_error_runs, (pop_proc_present ext proc) by exact Hproc.
    reflexivity.
  - rewrite Hproc.
    destruct (negb (subprocess proc =? subproc)%positive); [left; reflexivity|].
    destruct (PrimFloat.ltb _ instant_threshold).
    + destruct (Py.contains _ _).
      * destruct (Py.split squote _ !! 1%nat) as [package_name|];
          [|right; right; right; eexists; reflexivity].
        destruct (String.eqb package_name "ulauncher").
        -- right; left. eexists _, _. split; [exact Hsome|].
           rewrite set_extension_error_runs, (pop_proc_present ext proc) by exact Hproc.
           reflexivity.
        -- destruct (Py.truthy package_name).
           ++ right; left. eexists _, _. split; [exact Hsome|].
              rewrite set_extension_error_runs, (pop_proc_present ext proc)
                by exact Hproc.
              reflexivity.
           ++ right; right; left. split; [exact Hsome|].
              rewrite (pop_proc_present ext proc) by exact Hproc. reflexivity.
      * right; left. eexists _, _. split; [exact Hsome|].
        rewrite set_extension_error_runs, (pop_proc_present ext proc) by exact Hproc.
        reflexivity.
    + right; left. eexists _, _. split; [exact Hsome|].
      rewrite set_extension_error_runs, (pop_proc_present ext proc) by exact Hproc.
      reflexivity.
Qed.

(** The deque of a record keeps the last line only. *)
Lemma deque_append_keeps_last (d : Py.deque) (line : string) :
  Py.maxlen d = 1%nat ->
  Py.items (Py.deque_append d line) = [line].
Proof.
  intros Hmax. unfold Py.deque_append. cbn [Py.items]. rewrite Hmax, length_app.
  cbn [length]. replace (length (Py.items d) + 1 - 1)%nat with (length (Py.items d)) by lia.
  rewrite drop_app_length. reflexivity.
Qed.

Lemma record_ok_single_line (id : string) (proc : ExtensionProc) :
  record_ok id proc ->
  (Py.items (recent_errors proc) = [] /\ lasterr_of proc = EmptyString)
  \/ (exists line, Py.items (recent_errors proc) = [line] /\ lasterr_of proc = line).
Proof.
  intros (_ & _ & Hlen). unfold lasterr_of.
  destruct (Py.items (recent_errors proc)) as [|line [|line' rest]].
  - left. split; reflexivity.
  - right. exists line. split; reflexivity.
  - simpl in Hlen. lia.
Qed.

Lemma record_ok_append (id line : string) (proc : ExtensionProc) :
  record_ok id proc ->
  record_ok id (with_recent_errors (Py.deque_append (recent_errors proc) line) proc).
Proof.
  intros (Hid & Hmax & Hlen). split; [exact Hid|]. split; [exact Hmax|].
  cbn [with_recent_errors recent_errors].
  rewrite (deque_append_keeps_last _ line Hmax). simpl. lia.
Qed.

(** [consistent] does not depend on the timers or the trace, and survives
    changes that keep, drop or freshly add records as long as the errors of
    the running ids stay empty. *)
Lemma consistent_step (st st' : State) :
  consistent st ->
  (forall id proc,
      extension_procs st' !! id = Some proc ->
      (exists old, extension_procs st !! id = Some old
                   /\ (record_ok id old -> record_ok id proc)
                   /\ Db.current_error id (ext_db st') = Db.current_error id (ext_db st))
      \/ (record_ok id proc /\ Db.current_error id (ext_db st') = EmptyString)) ->
  consistent st'.
Proof.
  intros Hst Hstep id proc Hproc.
  destruct (Hstep id proc Hproc) as [(old & Hold & Hok & Herr)|Hnew]; [|exact Hnew].
  destruct (Hst id old Hold) as [Hrec Hnone].
  split; [apply Hok; exact Hrec | rewrite Herr; exact Hnone].
Qed.

Lemma current_error_update_other (id ext m t : string) (db : ExtensionDb) :
  id <> ext ->
  Db.current_error id (Db.update_record ext m t db) = Db.current_error id db.
Proof.
  intros Hne. unfold Db.current_error, Db.update_record. cbn [records].
  rewrite lookup_insert_ne by congruence. reflexivity.
Qed.

Lemma current_error_save (id : string) (db : ExtensionDb) :
  Db.current_error id (Db.save db) = Db.current_error id db.
Proof. reflexivity. Qed.

Lemma consistent_reset (ext : string) (st : State) :
  consistent st -> consistent (reset ext st).
Proof.
  intros Hst. apply (consistent_step st); [exact Hst|].
  intros id proc Hproc. cbn in Hproc.
  destruct (decide (id = ext)) as [->|Hne].
  - right. split; [apply (Hst ext proc Hproc)|].
    unfold Db.current_error. cbn. rewrite lookup_insert_eq. reflexivity.
  - left. exists proc. split; [exact Hproc|]. split; [tauto|].
    cbn. apply current_error_update_other. exact Hne.
Qed.

Lemma consistent_recorded (ext : string) (error : ExtensionRuntimeError)
  (message : string) (st : State) :
  extension_procs st !! ext = None ->
  consistent st -> consistent (recorded ext error message st).
Proof.
  intros Hnone Hst. apply (consistent_step st); [exact Hst|].
  intros id proc Hproc. cbn in Hproc. left. exists proc.
  split; [exact Hproc|]. split; [tauto|].
  cbn. rewrite current_error_save. apply current_error_update_other.
  intros ->. rewrite Hnone in Hproc. discriminate.
Qed.

Lemma consistent_removed (ext : string) (st : State) :
  consistent st -> consistent (removed ext st).
Proof.
  intros Hst. apply (consistent_step st); [exact Hst|].
  intros id proc Hproc. cbn in Hproc.
  apply lookup_delete_Some in Hproc as [Hne Hproc].
  left. exists proc. split; [exact Hproc|]. split; [tauto | reflexivity].
Qed.

Lemma consistent_diagnosed (ext : string) (error : ExtensionRuntimeError)
  (message : string) (st : State) :
  consistent st -> consistent (diagnosed ext error message st).
Proof.
  intros Hst. apply (consistent_step st); [exact Hst|].
  intros id proc Hproc. cbn in Hproc.
  apply lookup_delete_Some in Hproc as [Hne Hproc].
  left. exists proc. split; [exact Hproc|]. split; [tauto|].
  cbn. rewrite current_error_save. apply current_error_update_other. congruence.
Qed.

Lemma consistent_log_event (e : Event) (st : State) :
  consistent st -> consistent (log_event e st).
Proof. intros Hst id proc Hproc. exact (Hst id proc Hproc). Qed.

Lemma consistent_set_timers (f : list (float * ExtensionProc) -> list (float * ExtensionProc))
  (st : State) :
  consistent st -> consistent (set_timers f st).
Proof. intros Hst id proc Hproc. exact (Hst id proc Hproc). Qed.

Lemma consistent_run (pf : Platform) (w : World) (ext path : string) (st : State) :
  consistent st -> consistent (exec (run pf w ext path) st).
Proof.
  intros Hst. unfold exec.
  destruct (running st ext) eqn:Hrun.
  { rewrite (run_already_running pf w ext path st Hrun). exact Hst. }
  pose proof (proj1 (running_false_lookup st ext) Hrun) as Hnone.
  destruct (load w path) as [manifest|e] eqn:Hload.
  2:{ rewrite (run_load_raised pf w ext path st e Hrun Hload).
      apply consistent_reset; exact Hst. }
  destruct (manifest_checks manifest) as [failure|] eqn:Hchk.
  { rewrite (run_manifest_failure pf w ext path st manifest failure Hrun Hload Hchk).
    cbn [snd].
    destruct failure; apply consistent_recorded; try exact Hnone;
      apply consistent_reset; exact Hst. }
  destruct (spawnv w (child_cmd pf path) (child_env pf (verbose st) manifest ext))
    as [msg|subproc [pipe|]] eqn:Hspawn.
  - rewrite (run_spawn_failed pf w ext path msg st manifest Hrun Hload Hchk Hspawn).
    apply consistent_reset; exact Hst.
  - rewrite (run_spawned pf w ext path subproc pipe st manifest Hrun Hload Hchk Hspawn).
    cbn [snd].
    do 3 apply consistent_log_event.
    apply (consistent_step (reset ext st)); [apply consistent_reset; exact Hst|].
    intros id proc Hproc. cbn in Hproc.
    destruct (decide (id = ext)) as [->|Hne].
    + rewrite lookup_insert_eq in Hproc. injection Hproc as <-.
      right. split; [repeat split; cbn; lia|].
      unfold Db.current_error. cbn. rewrite lookup_insert_eq. reflexivity.
    + rewrite lookup_insert_ne in Hproc by congruence.
      left. exists proc. split; [exact Hproc|]. split; [tauto | reflexivity].
  - rewrite (run_without_pipe pf w ext path subproc st manifest Hrun Hload Hchk Hspawn).
    cbn [snd].
    apply consistent_log_event, consistent_reset; exact Hst.
Qed.

Lemma consistent_stop (ext : string) (st : State) :
  consistent st -> consistent (exec (stop ext) st).
Proof.
  intros Hst. unfold exec.
  destruct (extension_procs st !! ext) as [proc|] eqn:Hproc.
  - rewrite (stop_running ext proc st Hproc). cbn [snd].
    apply consistent_set_timers, consistent_log_event, consistent_removed; exact Hst.
  - rewrite (stop_not_running ext st Hproc). exact Hst.
Qed.

Lemma consistent_handle_exit (pf : Platform) (w : World) (subproc : obj_id)
  (ext : string) (st : State) :
  consistent st -> consistent (exec (handle_exit pf w subproc ext) st).
Proof.
  intros Hst. unfold exec.
  destruct (handle_exit_cases pf w subproc ext st)
    as [H|[(error & message & _ & H)|[[_ H]|[e H]]]]; rewrite H; cbn [snd].
  - exact Hst.
  - apply consistent_diagnosed; exact Hst.
  - apply consistent_removed; exact Hst.
  - exact Hst.
Qed.

Lemma consistent_handle_stderr (stream : DataInputStream) (output : option string)
  (ext : string) (st : State) :
  consistent st -> consistent (exec (handle_stderr stream output ext) st).
Proof.
  intros Hst. unfold exec.
  destruct (extension_procs st !! ext) as [proc|] eqn:Hproc.
  - destruct (Py.truthy_opt output) eqn:Hout.
    + destruct output as [line|]; [|discriminate Hout].
      rewrite (handle_stderr_line stream line ext proc st Hproc Hout). cbn [snd].
      apply consistent_log_event.
      apply (consistent_step st); [exact Hst|].
      intros id p Hp. cbn in Hp. left.
      destruct (decide (id = ext)) as [->|Hne].
      * rewrite lookup_insert_eq in Hp. injection Hp as <-.
        exists proc. split; [exact Hproc|]. split; [apply record_ok_append | reflexivity].
      * rewrite lookup_insert_ne in Hp by congruence.
        exists p. split; [exact Hp|]. split; [tauto | reflexivity].
    + rewrite (handle_stderr_nothing stream output ext proc st Hproc Hout). cbn [snd].
      apply consistent_log_event; exact Hst.
  - rewrite (handle_stderr_absent stream output ext st Hproc). cbn [snd].
    destruct (Py.truthy_opt output); [apply consistent_log_event|]; exact Hst.
Qed.

Lemma confirm_termination_cases (w : World) (proc : ExtensionProc) (st : State) :
  confirm_termination w proc st = (Ok tt, st)
  \/ confirm_termination w proc st
     = (Ok tt, log_event (EvSendSignal (subprocess proc) SIGKILL) st).
Proof.
  unfold confirm_termination.
  destruct (Py.truthy_opt _); [right | left]; reflexivity.
Qed.

Lemma consistent_fire_timer (w : World) (st : State) :
  consistent st -> consistent (exec (fire_timer w) st).
Proof.
  intros Hst. unfold exec, fire_timer. step_monad.
  destruct (timers st) as [|[delay proc] rest]; [exact Hst|].
  destruct (confirm_termination_cases w proc (set_timers (fun _ => rest) st)) as [H|H];
    rewrite H; cbn [snd].
  - apply consistent_set_timers; exact Hst.
  - apply consistent_log_event, consistent_set_timers; exact Hst.
Qed.

(** Every call keeps the table and the in-memory database consistent, so
    every state the main loop reaches from a consistent one is consistent. *)
Theorem perform_all_consistent (pf : Platform) (calls : list Call) (st : State) :
  consistent st -> consistent (perform_all pf calls st).
Proof.
  revert st. induction calls as [|c calls IH]; intros st Hst; [exact Hst|].
  cbn [perform_all fold_left]. apply IH.
  destruct c as [w ext path|ext|stream output ext|w subproc ext|w]; cbn [perform].
  - apply consistent_run; exact Hst.
  - apply consistent_stop; exact Hst.
  - apply consistent_handle_stderr; exact Hst.
  - apply consistent_handle_exit; exact Hst.
  - apply consistent_fire_timer; exact Hst.
Qed.

Lemma initial_consistent : consistent Demo.initial.
Proof. intros id proc Hproc. cbn in Hproc. rewrite lookup_empty in Hproc. discriminate. Qed.

(** In memory the alternative of C1 does hold: when [run] returns normally
    from a consistent state, either the extension is registered and its
    in-memory record carries no error, or it is not registered and its
    in-memory record carries one. *)
Theorem run_exactly_one_in_memory (pf : Platform) (w : World) (ext path : string)
  (st : State) :
  consistent st ->
  outcome (run pf w ext path) st = Ok tt ->
  let st' := exec (run pf w ext path) st in
  (running st' ext = true /\ Db.current_error ext (ext_db st') = EmptyString)
  \/ (running st' ext = false /\ Db.current_error ext (ext_db st') <> EmptyString).
Proof.
  intros Hst Hok. cbn zeta. unfold exec, outcome in *.
  destruct (running st ext) eqn:Hrun.
  { rewrite (run_already_running pf w ext path st Hrun). cbn [snd]. left.
    split; [exact Hrun|].
    apply running_true_lookup in Hrun as [proc Hproc]. apply (Hst ext proc Hproc). }
  destruct (load w path) as [manifest|e] eqn:Hload.
  2:{ rewrite (run_load_raised pf w ext path st e Hrun Hload) in Hok.
      discriminate Hok. }
  destruct (manifest_checks manifest) as [failure|] eqn:Hchk.
  { rewrite (run_manifest_failure pf w ext path st manifest failure Hrun Hload Hchk).
    cbn [snd]. right.
    destruct failure as [msg|msg]; (split; [exact Hrun|]);
      unfold Db.current_error;
      rewrite (proj1 (recorded_record ext _ msg (reset ext st))); discriminate. }
  destruct (spawnv w (child_cmd pf path) (child_env pf (verbose st) manifest ext))
    as [msg|subproc [pipe|]] eqn:Hspawn.
  - rewrite (run_spawn_failed pf w ext path msg st manifest Hrun Hload Hchk Hspawn) in Hok.
    discriminate Hok.
  - left.
    destruct (run_spawned_saves_nothing pf w ext path manifest subproc pipe st
                Hrun Hload Hchk Hspawn)
      as (_ & Hreg & Herr & _).
    split; [exact Hreg | exact Herr].
  - rewrite (run_without_pipe pf w ext path subproc st manifest Hrun Hload Hchk Hspawn)
      in Hok.
    discriminate Hok.
Qed.

Lemma started_consistent : consistent Demo.started.
Proof.
  assert (Ht : extension_procs Demo.started = {[ Demo.ext := Demo.first_proc ]})
    by (vm_compute; reflexivity).
  intros id proc Hproc. rewrite Ht in Hproc.
  apply lookup_singleton_Some in Hproc as [<- <-].
  split; [repeat split; cbn; lia | vm_compute; reflexivity].
Qed.

Lemma perform_all_consistent_witness :
  let final := perform_all Demo.platform Sample.busy_calls Demo.started in
  let retained :=
    with_recent_errors (Py.mk_deque 1 [Demo.line_requests]) Demo.first_proc in
  (extension_procs Demo.started !! Demo.ext = Some Demo.first_proc
   /\ consistent Demo.started)
  /\ extension_procs final !! Demo.ext = Some retained
  /\ consistent final
  /\ record_ok Demo.ext retained
  /\ Db.current_error Demo.ext (ext_db final) = EmptyString.
Proof.
  cbn zeta.
  split; [split; [vm_compute; reflexivity | exact started_consistent]|].
  assert (Hlook : extension_procs
                    (perform_all Demo.platform Sample.busy_calls Demo.started) !! Demo.ext
                  = Some (with_recent_errors (Py.mk_deque 1 [Demo.line_requests])
                            Demo.first_proc))
    by (vm_compute; reflexivity).
  pose proof (perform_all_consistent Demo.platform Sample.busy_calls Demo.started
                started_consistent) as Hfinal.
  split; [exact Hlook|]. split; [exact Hfinal|].
  exact (Hfinal Demo.ext _ Hlook).
Defined.

Lemma run_exactly_one_in_memory_witness :
  consistent Demo.exited_once
  /\ outcome (run Demo.platform Demo.w_start_again Demo.ext Demo.path) Demo.exited_once
     = Ok tt
  /\ running (exec (run Demo.platform Demo.w_start_again Demo.ext Demo.path)
                Demo.exited_once) Demo.ext = true
  /\ Db.current_error Demo.ext
       (ext_db (exec (run Demo.platform Demo.w_start_again Demo.ext Demo.path)
                  Demo.exited_once)) = EmptyString.
Proof.
  assert (Hc : consistent Demo.exited_once)
    by (apply consistent_handle_exit, consistent_run, initial_consistent).
  assert (Hok : outcome (run Demo.platform Demo.w_start_again Demo.ext Demo.path)
                  Demo.exited_once = Ok tt)
    by (vm_compute; reflexivity).
  split; [exact Hc|]. split; [exact Hok|].
  destruct (run_exactly_one_in_memory Demo.platform Demo.w_start_again Demo.ext Demo.path
              Demo.exited_once Hc Hok) as [Hreg|[Hnot _]].
  - exact Hreg.
  - exfalso. revert Hnot. vm_compute. discriminate.
Defined.

Lemma handle_exit_signaled_witness :
  (extension_procs Demo.started !! Demo.ext = Some Demo.first_proc
   /\ os Demo.w_killed_late 1%positive = KilledBy 9)
  /\ handle_exit Demo.platform Demo.w_killed_late 1%positive Demo.ext Demo.started
     = (Ok tt, diagnosed Demo.ext Terminated (msg_signal Demo.ext 9) Demo.started).
Proof.
  split; [split; vm_compute; reflexivity|].
  apply (handle_exit_signaled Demo.platform Demo.w_killed_late 1%positive Demo.ext
           Demo.first_proc 9 Demo.started);
    vm_compute; reflexivity.
Defined.

(** * Further properties of the runner *)

(** ** The preferences handed to the child *)
















(** ** Every way [run], [stop] and [handle_stderr] can end *)

Lemma run_cases (pf : Platform) (w : World) (ext path : string) (st : State) :
  (running st ext = true /\ run pf w ext path st = (Ok tt, st))
  \/ (running st ext = false
      /\ ((exists error message,
             run pf w ext path st = (Ok tt, recorded ext error message (reset ext st)))
          \/ (exists e, run pf w ext path st = (Raised e, reset ext st))
          \/ (exists e cmd env subproc,
                run pf w ext path st
                = (Raised e, log_event (EvSpawn cmd env subproc) (reset ext st)))
          \/ (exists cmd env subproc pipe,
                run pf w ext path st
                = (Ok tt,
                   log_event (EvReadLineAsync (DataInputStream_new pipe) ext)
                     (log_event (EvWaitAsync subproc ext)
                        (log_event (EvRegistered ext)
                           (set_procs
                              (insert ext
                                 (mk_proc ext subproc (time w) (DataInputStream_new pipe)
                                    (Py.deque_new 1)))
                              (log_event (EvSpawn cmd env subproc) (reset ext st))))))))).
Proof.
  destruct (running st ext) eqn:Hrun.
  { left. split; [reflexivity | exact (run_already_running pf w ext path st Hrun)]. }
  right. split; [reflexivity|].
  destruct (load w path) as [manifest|e] eqn:Hload.
  2:{ right; left. eexists. exact (run_load_raised pf w ext path st e Hrun Hload). }
  destruct (manifest_checks manifest) as [failure|] eqn:Hchk.
  { left. rewrite (run_manifest_failure pf w ext path st manifest failure Hrun Hload Hchk).
    destruct failure; eexists _, _; reflexivity. }
  right.
  destruct (spawnv w (child_cmd pf path) (child_env pf (verbose st) manifest ext))
    as [msg|subproc [pipe|]] eqn:Hspawn.
  - left. eexists. exact (run_spawn_failed pf w ext path msg st manifest Hrun Hload Hchk Hspawn).
  - right; right. eexists _, _, _, _.
    exact (run_spawned pf w ext path subproc pipe st manifest Hrun Hload Hchk Hspawn).
  - right; left. eexists _, _, _, _.
    exact (run_without_pipe pf w ext path subproc st manifest Hrun Hload Hchk Hspawn).
Qed.

Lemma handle_stderr_cases (stream : DataInputStream) (output : option string)
  (ext : string) (st : State) :
  (exists printed : bool,
      handle_stderr stream output ext st
      = (Ok tt, if printed then log_event (EvPrint (default EmptyString output)) st
                else st)
      /\ extension_procs st !! ext = None)
  \/ (exists proc,
        extension_procs st !! ext = Some proc
        /\ (handle_stderr stream output ext st
            = (Ok tt, log_event (EvReadLineAsync (error_stream proc) (ext_id proc)) st)
            \/ exists line,
                 handle_stderr stream output ext st
                 = (Ok tt,
                    log_event (EvReadLineAsync (error_stream proc) (ext_id proc))
                      (set_procs
                         (insert ext
                            (with_recent_errors
                               (Py.deque_append (recent_errors proc) line) proc))
                         (log_event (EvPrint line) st))))).
Proof.
  destruct (extension_procs st !! ext) as [proc|] eqn:Hproc.
  - right. exists proc. split; [reflexivity|].
    destruct (Py.truthy_opt output) eqn:Hout.
    + destruct output as [line|]; [|discriminate Hout].
      right. exists line. exact (handle_stderr_line stream line ext proc st Hproc Hout).
    + left. exact (handle_stderr_nothing stream output ext proc st Hproc Hout).
  - left. exists (Py.truthy_opt output). split; [|reflexivity].
    exact (handle_stderr_absent stream output ext st Hproc).
Qed.

(** ** Running twice, stopping twice *)

(** Once [run] has started the extension, running it again changes nothing,
    whatever the manifest or the spawn would now answer: no reset of the
    record, no second child. *)
Theorem run_again_is_noop (pf : Platform) (w w' : World) (ext path path' : string)
  (manifest : ExtensionManifest) (subproc pipe : obj_id) (st : State) :
  running st ext = false ->
  load w path = Loaded manifest ->
  manifest_checks manifest = None ->
  spawnv w (child_cmd pf path) (child_env pf (verbose st) manifest ext)
    = Spawned subproc (Some pipe) ->
  run pf w' ext path' (exec (run pf w ext path) st)
  = (Ok tt, exec (run pf w ext path) st).
Proof.
  intros Hrun Hload Hchk Hspawn. apply run_already_running.
  exact (proj1 (proj2 (run_spawned_saves_nothing pf w ext path manifest subproc pipe st
                         Hrun Hload Hchk Hspawn))).
Qed.

(** [stop] of an extension that is not running does nothing at all, so a
    second [stop] sends no second [SIGTERM] and queues no second check. *)
Theorem stop_twice_is_stop_once (ext : string) (st : State) :
  stop ext (exec (stop ext) st) = (Ok tt, exec (stop ext) st)
  /\ (running st ext = false -> stop ext st = (Ok tt, st)).
Proof.
  split.
  - apply stop_not_running. unfold exec.
    destruct (extension_procs st !! ext) as [proc|] eqn:Hproc.
    + rewrite (stop_running ext proc st Hproc). cbn. apply lookup_delete_eq.
    + rewrite (stop_not_running ext st Hproc). exact Hproc.
  - intros Hrun. apply stop_not_running, running_false_lookup. exact Hrun.
Qed.

(** ** The retained line *)

(** A non-empty line read while the record is present replaces whatever the
    record retained: the exit handler will inspect exactly this line.  The
    rest of the record, the other records and the database are untouched.  A
    read that delivers nothing or an empty line leaves the whole table as it
    is. *)
Theorem handle_stderr_retains_last_line (stream : DataInputStream) (line ext : string)
  (proc : ExtensionProc) (st : State) :
  extension_procs st !! ext = Some proc ->
  Py.maxlen (recent_errors proc) = 1%nat ->
  Py.truthy line = true ->
  let st' := exec (handle_stderr stream (Some line) ext) st in
  (exists proc',
      extension_procs st' !! ext = Some proc'
      /\ lasterr_of proc' = line
      /\ subprocess proc' = subprocess proc
      /\ start_time proc' = start_time proc
      /\ error_stream proc' = error_stream proc
      /\ Py.maxlen (recent_errors proc') = 1%nat)
  /\ (forall id, id <> ext -> extension_procs st' !! id = extension_procs st !! id)
  /\ ext_db st' = ext_db st
  /\ (forall output,
        Py.truthy_opt output = false ->
        extension_procs (exec (handle_stderr stream output ext) st) = extension_procs st).
Proof.
  intros Hproc Hmax Hline. cbn zeta. unfold exec.
  rewrite (handle_stderr_line stream line ext proc st Hproc Hline). cbn [snd].
  split; [|split; [|split]].
  - eexists. split; [cbn; apply lookup_insert_eq|].
    unfold lasterr_of. cbn [with_recent_errors recent_errors subprocess start_time
                            error_stream].
    rewrite (deque_append_keeps_last _ line Hmax). cbn. repeat split. exact Hmax.
  - intros id Hne. cbn. apply lookup_insert_ne. congruence.
  - reflexivity.
  - intros output Hout.
    rewrite (handle_stderr_nothing stream output ext proc st Hproc Hout). reflexivity.
Qed.

(** ** What a call leaves alone *)

(** A call about one extension leaves the table entry and the in-memory
    record of every other extension as they were; the timer leaves all of
    them. *)
Theorem call_leaves_other_extensions (pf : Platform) (c : Call) (id : string)
  (st : State) :
  call_target c <> Some id ->
  let st' := exec (perform pf c) st in
  extension_procs st' !! id = extension_procs st !! id
  /\ records (ext_db st') !! id = records (ext_db st) !! id
  /\ verbose st' = verbose st.
Proof.
  intros Hid. cbn zeta. unfold exec.
  destruct c as [w ext path|ext|stream output ext|w subproc ext|w]; cbn [perform];
    cbn [call_target] in Hid;
    try (assert (Hne : ext <> id) by congruence).
  - destruct (run_cases pf w ext path st)
      as [[_ H]|[_ [(error & message & H)|[[e H]|[(e & cmd & env & h & H)
                                                  |(cmd & env & h & pipe & H)]]]]];
      rewrite H; cbn; rewrite ?lookup_insert_ne by exact Hne; repeat split.
  - destruct (extension_procs st !! ext) as [proc|] eqn:Hproc.
    + rewrite (stop_running ext proc st Hproc). cbn.
      rewrite lookup_delete_ne by exact Hne. repeat split.
    + rewrite (stop_not_running ext st Hproc). repeat split.
  - destruct (handle_stderr_cases stream output ext st)
      as [([|] & H & _)|(proc & _ & [H|[line H]])];
      rewrite H; cbn; rewrite ?lookup_insert_ne by exact Hne; repeat split.
  - destruct (handle_exit_cases pf w subproc ext st)
      as [H|[(error & message & _ & H)|[[_ H]|[e H]]]]; rewrite H; cbn;
      rewrite ?lookup_delete_ne, ?lookup_insert_ne by exact Hne; repeat split.
  - unfold fire_timer. step_monad.
    destruct (timers st) as [|[delay proc] rest]; [repeat split|].
    destruct (confirm_termination_cases w proc (set_timers (fun _ => rest) st)) as [H|H];
      rewrite H; repeat split.
Qed.

(** The saved copy of the database only ever changes by a save of everything
    held in memory: after any call it is either what it was or equal to the
    in-memory records, those of every extension. *)
Theorem saved_changes_only_by_full_save (pf : Platform) (c : Call) (st : State) :
  let st' := exec (perform pf c) st in
  saved (ext_db st') = saved (ext_db st)
  \/ saved (ext_db st') = records (ext_db st').
Proof.
  cbn zeta. unfold exec.
  destruct c as [w ext path|ext|stream output ext|w subproc ext|w]; cbn [perform].
  - destruct (run_cases pf w ext path st)
      as [[_ H]|[_ [(error & message & H)|[[e H]|[(e & cmd & env & h & H)
                                                  |(cmd & env & h & pipe & H)]]]]];
      rewrite H; cbn; auto.
  - destruct (extension_procs st !! ext) as [proc|] eqn:Hproc.
    + rewrite (stop_running ext proc st Hproc). left. reflexivity.
    + rewrite (stop_not_running ext st Hproc). left. reflexivity.
  - destruct (handle_stderr_cases stream output ext st)
      as [([|] & H & _)|(proc & _ & [H|[line H]])]; rewrite H; left; reflexivity.
  - destruct (handle_exit_cases pf w subproc ext st)
      as [H|[(error & message & _ & H)|[[_ H]|[e H]]]]; rewrite H; cbn; auto.
  - unfold fire_timer. step_monad.
    destruct (timers st) as [|[delay proc] rest]; [left; reflexivity|].
    destruct (confirm_termination_cases w proc (set_timers (fun _ => rest) st)) as [H|H];
      rewrite H; left; reflexivity.
Qed.

(** ** Signals go to the runner's own children, and kills follow terminations *)

Lemma was_spawned_more (h : obj_id) (events more : list Event) :
  was_spawned h events -> was_spawned h (events ++ more)%list.
Proof.
  intros (cmd & env & Hin). exists cmd, env. apply elem_of_app. left. exact Hin.
Qed.

Lemma signals_sent_quiet (h : obj_id) (sig : Z) (events : list Event) :
  Forall quiet events -> signals_sent h sig events = 0%nat.
Proof.
  induction 1 as [|e events He _ IH]; [reflexivity|].
  unfold signals_sent in *. destruct e; cbn in *; try exact IH. contradiction.
Qed.

(** Calls that send no signal and leave the timers alone keep [signal_safe]
    as long as every record they leave in the table is for a spawned child. *)
Lemma signal_safe_quiet_step (st st' : State) (events : list Event) :
  signal_safe st ->
  trace st' = (trace st ++ events)%list ->
  Forall quiet events ->
  timers st' = timers st ->
  (forall id proc,
      extension_procs st' !! id = Some proc ->
      (exists old, extension_procs st !! id = Some old
                   /\ subprocess old = subprocess proc)
      \/ was_spawned (subprocess proc) (trace st')) ->
  signal_safe st'.
Proof.
  intros (Htab & Htim & Hsig & Hcount) Htrace Hquiet Htimers Hrecs.
  split; [|split; [|split]].
  - intros id proc Hproc.
    destruct (Hrecs id proc Hproc) as [(old & Hold & Hsame)|Hnew]; [|exact Hnew].
    rewrite Htrace, <- Hsame. apply was_spawned_more. exact (Htab id old Hold).
  - intros t Ht. rewrite Htimers in Ht. rewrite Htrace.
    apply was_spawned_more. exact (Htim t Ht).
  - intros h sig Hin. rewrite Htrace in *. apply elem_of_app in Hin as [Hin|Hin].
    + apply was_spawned_more. exact (Hsig h sig Hin).
    + rewrite Forall_forall in Hquiet. destruct (Hquiet _ Hin).
  - intros h. rewrite Htrace, Htimers, !signals_sent_app.
    rewrite !(signals_sent_quiet h _ events Hquiet). specialize (Hcount h). lia.
Qed.

Lemma signal_safe_run (pf : Platform) (w : World) (ext path : string) (st : State) :
  signal_safe st -> signal_safe (exec (run pf w ext path) st).
Proof.
  intros Hst. unfold exec.
  destruct (run_cases pf w ext path st)
    as [[_ H]|[_ [(error & message & H)|[[e H]|[(e & cmd & env & h & H)
                                                |(cmd & env & h & pipe & H)]]]]];
    rewrite H; cbn [snd].
  - exact Hst.
  - apply (signal_safe_quiet_step st _ [EvDbSave]); try reflexivity; try exact Hst.
    + repeat constructor.
    + intros id proc Hproc. left. exists proc. split; [exact Hproc | reflexivity].
  - apply (signal_safe_quiet_step st _ []); try exact Hst.
    + cbn. rewrite app_nil_r. reflexivity.
    + constructor.
    + reflexivity.
    + intros id proc Hproc. left. exists proc. split; [exact Hproc | reflexivity].
  - apply (signal_safe_quiet_step st _ [EvSpawn cmd env h]); try reflexivity;
      try exact Hst.
    + repeat constructor.
    + intros id proc Hproc. left. exists proc. split; [exact Hproc | reflexivity].
  - apply (signal_safe_quiet_step st _
             [EvSpawn cmd env h; EvRegistered ext; EvWaitAsync h ext;
              EvReadLineAsync (DataInputStream_new pipe) ext]); try exact Hst.
    + cbn. rewrite <- !app_assoc. reflexivity.
    + repeat constructor.
    + reflexivity.
    + intros id proc Hproc. cbn in Hproc.
      destruct (decide (id = ext)) as [->|Hne].
      * rewrite lookup_insert_eq in Hproc. injection Hproc as <-. right.
        exists cmd, env. cbn. rewrite !elem_of_app, elem_of_cons. tauto.
      * rewrite lookup_insert_ne in Hproc by congruence.
        left. exists proc. split; [exact Hproc | reflexivity].
Qed.

Lemma signal_safe_handle_stderr (stream : DataInputStream) (output : option string)
  (ext : string) (st : State) :
  signal_safe st -> signal_safe (exec (handle_stderr stream output ext) st).
Proof.
  intros Hst. unfold exec.
  destruct (handle_stderr_cases stream output ext st)
    as [([|] & H & _)|(proc & Hproc & [H|[line H]])]; rewrite H; cbn [snd].
  - apply (signal_safe_quiet_step st _ [EvPrint (default EmptyString output)]);
      try reflexivity; try exact Hst; [repeat constructor|].
    intros id p Hp. left. exists p. split; [exact Hp | reflexivity].
  - exact Hst.
  - apply (signal_safe_quiet_step st _
             [EvReadLineAsync (error_stream proc) (ext_id proc)]);
      try reflexivity; try exact Hst; [repeat constructor|].
    intros id p Hp. left. exists p. split; [exact Hp | reflexivity].
  - apply (signal_safe_quiet_step st _
             [EvPrint line; EvReadLineAsync (error_stream proc) (ext_id proc)]);
      try exact Hst.
    + cbn. rewrite <- !app_assoc. reflexivity.
    + repeat constructor.
    + reflexivity.
    + intros id p Hp. cbn in Hp. left.
      destruct (decide (id = ext)) as [->|Hne].
      * rewrite lookup_insert_eq in Hp. injection Hp as <-.
        exists proc. split; [exact Hproc | reflexivity].
      * rewrite lookup_insert_ne in Hp by congruence.
        exists p. split; [exact Hp | reflexivity].
Qed.

Lemma signal_safe_handle_exit (pf : Platform) (w : World) (subproc : obj_id)
  (ext : string) (st : State) :
  signal_safe st -> signal_safe (exec (handle_exit pf w subproc ext) st).
Proof.
  intros Hst. unfold exec.
  destruct (handle_exit_cases pf w subproc ext st)
    as [H|[(error & message & _ & H)|[[_ H]|[e H]]]]; rewrite H; cbn [snd];
    try exact Hst.
  - apply (signal_safe_quiet_step st _ [EvDbSave; EvRemoved ext]); try exact Hst.
    + cbn. rewrite <- !app_assoc. reflexivity.
    + repeat constructor.
    + reflexivity.
    + intros id p Hp. cbn in Hp. apply lookup_delete_Some in Hp as [_ Hp].
      left. exists p. split; [exact Hp | reflexivity].
  - apply (signal_safe_quiet_step st _ [EvRemoved ext]); try reflexivity;
      try exact Hst; [repeat constructor|].
    intros id p Hp. cbn in Hp. apply lookup_delete_Some in Hp as [_ Hp].
    left. exists p. split; [exact Hp | reflexivity].
Qed.

Lemma checks_pending_app (h : obj_id) (ts more : list (float * ExtensionProc)) :
  checks_pending h (ts ++ more)%list
  = (checks_pending h ts + checks_pending h more)%nat.
Proof. unfold checks_pending. rewrite List.filter_app, length_app. reflexivity. Qed.

Lemma checks_pending_one (h : obj_id) (delay : float) (proc : ExtensionProc) :
  checks_pending h [(delay, proc)]
  = if Pos.eqb (subprocess proc) h then 1%nat else 0%nat.
Proof. unfold checks_pending. cbn. destruct (Pos.eqb _ _); reflexivity. Qed.

Lemma signal_safe_stop (ext : string) (st : State) :
  signal_safe st -> signal_safe (exec (stop ext) st).
Proof.
  intros Hst. unfold exec.
  destruct (extension_procs st !! ext) as [proc|] eqn:Hproc;
    [|rewrite (stop_not_running ext st Hproc); exact Hst].
  rewrite (stop_running ext proc st Hproc). cbn [snd].
  set (st' := set_timers _ _).
  assert (Htr : trace st'
                = (trace st ++ [EvRemoved ext; EvSendSignal (subprocess proc) SIGTERM])%list)
    by (cbn; rewrite <- app_assoc; reflexivity).
  assert (Hti : timers st' = (timers st ++ [(termination_delay, proc)])%list)
    by reflexivity.
  assert (Hta : extension_procs st' = delete ext (extension_procs st)) by reflexivity.
  clearbody st'.
  destruct Hst as (Htab & Htim & Hsig & Hcount).
  pose proof (Htab ext proc Hproc) as Hspawned.
  split; [|split; [|split]]; rewrite ?Htr, ?Hti, ?Hta.
  - intros id p Hp. apply lookup_delete_Some in Hp as [_ Hp].
    apply was_spawned_more. exact (Htab id p Hp).
  - intros t Ht. apply was_spawned_more.
    apply elem_of_app in Ht as [Ht|Ht]; [exact (Htim t Ht)|].
    apply list_elem_of_singleton in Ht. subst t. exact Hspawned.
  - intros h sig Hin. apply was_spawned_more.
    rewrite elem_of_app, !elem_of_cons, elem_of_nil in Hin.
    destruct Hin as [Hin|[Hin|[Hin|[]]]]; [exact (Hsig h sig Hin) | discriminate Hin|].
    injection Hin as -> ->. exact Hspawned.
  - intros h. specialize (Hcount h).
    change [EvRemoved ext; EvSendSignal (subprocess proc) SIGTERM]
      with ([EvRemoved ext] ++ [EvSendSignal (subprocess proc) SIGTERM])%list.
    rewrite !signals_sent_app, checks_pending_app, checks_pending_one,
      !signals_sent_one.
    rewrite !(signals_sent_quiet h _ [EvRemoved ext]) by (repeat constructor).
    change (SIGTERM =? SIGKILL) with false. change (SIGTERM =? SIGTERM) with true.
    rewrite andb_false_r, andb_true_r.
    destruct (Pos.eqb (subprocess proc) h); lia.
Qed.

Lemma signal_safe_fire_timer (w : World) (st : State) :
  signal_safe st -> signal_safe (exec (fire_timer w) st).
Proof.
  intros Hst. unfold exec, fire_timer. step_monad.
  destruct (timers st) as [|[delay proc] rest] eqn:Hts; [exact Hst|].
  destruct Hst as (Htab & Htim & Hsig & Hcount).
  assert (Hspawned : was_spawned (subprocess proc) (trace st)).
  { apply (Htim (delay, proc)). rewrite Hts. apply elem_of_cons. left. reflexivity. }
  assert (Hrest : forall t, t ∈ rest -> was_spawned (subprocess (snd t)) (trace st)).
  { intros t Ht. apply Htim. rewrite Hts. apply elem_of_cons. right. exact Ht. }
  assert (Hpending : forall h,
             checks_pending h (timers st)
             = ((if Pos.eqb (subprocess proc) h then 1 else 0) + checks_pending h rest)%nat).
  { intros h. rewrite Hts.
    change ((delay, proc) :: rest) with ([(delay, proc)] ++ rest)%list.
    rewrite checks_pending_app, checks_pending_one. reflexivity. }
  destruct (confirm_termination_cases w proc (set_timers (fun _ => rest) st)) as [H|H];
    rewrite H; cbn [snd].
  - split; [exact Htab|]. split; [exact Hrest|]. split; [exact Hsig|].
    intros h. specialize (Hcount h). rewrite Hpending in Hcount.
    change (timers (set_timers (fun _ => rest) st)) with rest.
    change (trace (set_timers (fun _ => rest) st)) with (trace st). lia.
  - set (st' := log_event _ _).
    assert (Htr : trace st'
                  = (trace st ++ [EvSendSignal (subprocess proc) SIGKILL])%list)
      by reflexivity.
    assert (Hti : timers st' = rest) by reflexivity.
    assert (Hta : extension_procs st' = extension_procs st) by reflexivity.
    clearbody st'.
    split; [|split; [|split]]; rewrite ?Htr, ?Hti, ?Hta.
    + intros id p Hp. apply was_spawned_more. exact (Htab id p Hp).
    + intros t Ht. apply was_spawned_more. exact (Hrest t Ht).
    + intros h sig Hin. apply was_spawned_more.
      rewrite elem_of_app, list_elem_of_singleton in Hin.
      destruct Hin as [Hin|Hin]; [exact (Hsig h sig Hin)|].
      injection Hin as -> ->. exact Hspawned.
    + intros h. specialize (Hcount h). rewrite Hpending in Hcount.
      rewrite !signals_sent_app, !signals_sent_one.
      change (SIGKILL =? SIGKILL) with true. change (SIGKILL =? SIGTERM) with false.
      rewrite andb_false_r, andb_true_r.
      destruct (Pos.eqb (subprocess proc) h); lia.
Qed.

(** From a state in which it holds (the fresh runner, say), every sequence of
    calls keeps [signal_safe]: each signal ever sent went to a subprocess the
    runner spawned, and for each subprocess the number of [SIGKILL]s sent,
    plus the checks still pending for it, never exceeds the number of
    [SIGTERM]s sent to it. *)
Theorem perform_all_signal_safe (pf : Platform) (calls : list Call) (st : State) :
  signal_safe st -> signal_safe (perform_all pf calls st).
Proof.
  revert st. induction calls as [|c calls IH]; intros st Hst; [exact Hst|].
  cbn [perform_all fold_left]. apply IH.
  destruct c as [w ext path|ext|stream output ext|w subproc ext|w]; cbn [perform].
  - apply signal_safe_run; exact Hst.
  - apply signal_safe_stop; exact Hst.
  - apply signal_safe_handle_stderr; exact Hst.
  - apply signal_safe_handle_exit; exact Hst.
  - apply signal_safe_fire_timer; exact Hst.
Qed.

Lemma initial_signal_safe : signal_safe Demo.initial.
Proof.
  split; [|split; [|split]]; cbn.
  - intros id proc H. rewrite lookup_empty in H. discriminate.
  - intros t Ht. destruct (not_elem_of_nil _ Ht).
  - intros h sig Hin. destruct (not_elem_of_nil _ Hin).
  - intros h. reflexivity.
Qed.

(** ** The module named by Python's message *)

Lemma prefix_append (n a b : string) :
  String.prefix n a = true -> String.prefix n (a ++ b) = true.
Proof.
  revert a. induction n as [|c n IH]; intros a H; [destruct (a ++ b); reflexivity|].
  destruct a as [|c' a]; [discriminate H|].
  change (String c' a ++ b) with (String c' (a ++ b)). cbn in *.
  destruct (ascii_dec c c'); [exact (IH a H) | discriminate H].
Qed.

Lemma contains_append (n a b : string) :
  Py.contains n a = true -> Py.contains n (a ++ b) = true.
Proof.
  induction a as [|c a IH]; intros H.
  - cbn in H. destruct n; [destruct b; reflexivity | discriminate H].
  - cbn [Py.contains] in H. change (String c a ++ b) with (String c (a ++ b)).
    cbn [Py.contains].
    destruct (String.prefix n (String c a)) eqn:Hp.
    + pose proof (prefix_append n (String c a) b Hp) as Hp'.
      change (String c a ++ b) with (String c (a ++ b)) in Hp'.
      rewrite Hp'. reflexivity.
    + destruct (String.prefix n (String c (a ++ b))); [reflexivity | exact (IH H)].
Qed.

Lemma split_nonempty (c : ascii) (s : string) : Py.split c s <> [].
Proof.
  destruct s as [|a s]; cbn; [discriminate|].
  destruct (Ascii.eqb a c); [discriminate|].
  destruct (Py.split c s); discriminate.
Qed.

Lemma split_append_no_separator (c : ascii) (a s : string) :
  Py.contains (String c EmptyString) a = false ->
  Py.split c (a ++ s)
  = match Py.split c s with
    | piece :: pieces => (a ++ piece) :: pieces
    | [] => [a]
    end.
Proof.
  induction a as [|x a IH]; intros H.
  - change (EmptyString ++ s) with s.
    destruct (Py.split c s) eqn:Hs; [destruct (split_nonempty c s Hs) | reflexivity].
  - rewrite contains_char_cons in H. change (String x a ++ s) with (String x (a ++ s)).
    cbn [Py.split]. destruct (Ascii.eqb x c); [discriminate H|].
    rewrite (IH H). destruct (Py.split c s); reflexivity.
Qed.

(** Element 1 of the quote-split is the text between the first two quotes. *)
Lemma split_quoted_name (c : ascii) (before name rest : string) :
  Py.contains (String c EmptyString) before = false ->
  Py.contains (String c EmptyString) name = false ->
  Py.split c (before ++ String c (name ++ String c rest)) !! 1%nat = Some name.
Proof.
  intros Hb Hn. rewrite (split_append_no_separator c before _ Hb).
  cbn [Py.split]. rewrite Ascii.eqb_refl.
  rewrite (split_append_no_separator c name _ Hn).
  cbn [Py.split]. rewrite Ascii.eqb_refl. cbn.
  f_equal. clear. induction name as [|x name IH]; [reflexivity|].
  change (String x name ++ EmptyString) with (String x (name ++ EmptyString)).
  rewrite IH. reflexivity.
Qed.

(** For every retained line of the shape Python prints, some text with the
    marker and without a quote, then a quoted non-empty module name, then
    anything, an instant exit is diagnosed by that name: [Incompatible] when
    it is exactly [ulauncher], [MissingModule] with the name otherwise; so a
    missing submodule such as [ulauncher.api] is reported as a missing
    module. *)
Theorem handle_exit_names_quoted_module (pf : Platform) (w : World)
  (subproc : obj_id) (ext : string) (proc : ExtensionProc) (code : Z) (st : State)
  (before name rest : string) :
  extension_procs st !! ext = Some proc ->
  subprocess proc = subproc ->
  os w subproc = ExitedWith code ->
  PrimFloat.ltb (uptime_of w proc) instant_threshold = true ->
  lasterr_of proc = before ++ String squote (name ++ String squote rest) ->
  Py.contains "ModuleNotFoundError" before = true ->
  Py.contains (String squote EmptyString) before = false ->
  Py.contains (String squote EmptyString) name = false ->
  name <> EmptyString ->
  handle_exit pf w subproc ext st
  = (Ok tt,
     if String.eqb name "ulauncher"
     then diagnosed ext Incompatible (msg_instant ext code) st
     else diagnosed ext MissingModule name st).
Proof.
  intros Hproc Hid Hos Hup Hline Hmark Hb Hn Hne.
  assert (Hcontains : Py.contains "ModuleNotFoundError" (lasterr_of proc) = true)
    by (rewrite Hline; apply contains_append; exact Hmark).
  rewrite (handle_exit_instant_module pf w subproc ext proc code st
             Hproc Hid Hos Hup Hcontains).
  rewrite Hline, (split_quoted_name squote before name rest Hb Hn).
  destruct (String.eqb name "ulauncher"); [reflexivity|].
  destruct name; [contradiction Hne; reflexivity | reflexivity].
Qed.

(** ** Examples for the further properties *)


Lemma run_again_is_noop_witness :
  (running Demo.initial Demo.ext = false
   /\ load Demo.w_start Demo.path = Loaded Demo.manifest_ok
   /\ manifest_checks Demo.manifest_ok = None)
  /\ run Demo.platform Sample.w_broken Demo.ext Demo.path Demo.started
     = (Ok tt, Demo.started).
Proof.
  split; [repeat split; vm_compute; reflexivity|].
  apply (run_again_is_noop Demo.platform Demo.w_start Sample.w_broken Demo.ext Demo.path
           Demo.path Demo.manifest_ok 1%positive 2%positive Demo.initial);
    vm_compute; reflexivity.
Defined.

Lemma handle_stderr_retains_last_line_witness :
  (extension_procs (Demo.wrote Demo.line_unquoted) !! Demo.ext
     = Some (with_recent_errors (Py.mk_deque 1 [Demo.line_unquoted]) Demo.first_proc)
   /\ Py.truthy Demo.line_requests = true)
  /\ exists proc',
       extension_procs
         (exec (handle_stderr (DataInputStream_new 2%positive) (Some Demo.line_requests)
                  Demo.ext)
            (Demo.wrote Demo.line_unquoted)) !! Demo.ext = Some proc'
       /\ lasterr_of proc' = Demo.line_requests.
Proof.
  split; [split; vm_compute; reflexivity|].
  destruct (handle_stderr_retains_last_line (DataInputStream_new 2%positive)
              Demo.line_requests Demo.ext
              (with_recent_errors (Py.mk_deque 1 [Demo.line_unquoted]) Demo.first_proc)
              (Demo.wrote Demo.line_unquoted))
    as [(proc' & Hlook & Hline & _) _]; [vm_compute; reflexivity ..|].
  exists proc'. split; [exact Hlook | exact Hline].
Defined.

Lemma call_leaves_other_extensions_witness :
  let call := CallHandleExit Demo.w_exit_late 1%positive Demo.ext in
  let st' := exec (perform Demo.platform call) Sample.both_started in
  (call_target call <> Some Sample.other_ext
   /\ extension_procs Sample.both_started !! Sample.other_ext = Some Sample.other_proc
   /\ records (ext_db Sample.both_started) !! Sample.other_ext = Some empty_record
   /\ running Sample.both_started Demo.ext = true)
  /\ running st' Demo.ext = false
  /\ extension_procs st' !! Sample.other_ext = Some Sample.other_proc
  /\ records (ext_db st') !! Sample.other_ext = Some empty_record.
Proof.
  cbn zeta.
  assert (H : call_target (CallHandleExit Demo.w_exit_late 1%positive Demo.ext)
              <> Some Sample.other_ext) by discriminate.
  assert (Hp : extension_procs Sample.both_started !! Sample.other_ext
               = Some Sample.other_proc) by (vm_compute; reflexivity).
  assert (Hr : records (ext_db Sample.both_started) !! Sample.other_ext
               = Some empty_record) by (vm_compute; reflexivity).
  split; [repeat split; try assumption; vm_compute; reflexivity|].
  split; [vm_compute; reflexivity|].
  destruct (call_leaves_other_extensions Demo.platform
              (CallHandleExit Demo.w_exit_late 1%positive Demo.ext)
              Sample.other_ext Sample.both_started H) as (Hp' & Hr' & _).
  split; [exact (eq_trans Hp' Hp) | exact (eq_trans Hr' Hr)].
Defined.

Lemma perform_all_signal_safe_witness :
  signal_safe Demo.initial
  /\ signal_safe (perform_all Demo.platform Sample.calls Demo.initial)
  /\ signals_sent 1%positive SIGTERM
       (trace (perform_all Demo.platform Sample.calls Demo.initial)) = 1%nat
  /\ signals_sent 1%positive SIGKILL
       (trace (perform_all Demo.platform Sample.calls Demo.initial)) = 1%nat.
Proof.
  split; [exact initial_signal_safe|].
  split; [apply (perform_all_signal_safe Demo.platform), initial_signal_safe|].
  split; vm_compute; reflexivity.
Defined.

Lemma handle_exit_names_quoted_module_witness :
  (extension_procs Sample.wrote_submodule !! Demo.ext
     = Some (with_recent_errors (Py.mk_deque 1 [Sample.line_submodule]) Demo.first_proc)
   /\ PrimFloat.ltb (PrimFloat.sub 100.5 100) instant_threshold = true)
  /\ handle_exit Demo.platform Demo.w_exit_fast 1%positive Demo.ext Sample.wrote_submodule
     = (Ok tt, diagnosed Demo.ext MissingModule "ulauncher.api" Sample.wrote_submodule).
Proof.
  split; [split; vm_compute; reflexivity|].
  apply (handle_exit_names_quoted_module Demo.platform Demo.w_exit_fast 1%positive
           Demo.ext
           (with_recent_errors (Py.mk_deque 1 [Sample.line_submodule]) Demo.first_proc)
           1 Sample.wrote_submodule
           "ModuleNotFoundError: No module named " "ulauncher.api" EmptyString);
    try (vm_compute; reflexivity).
  discriminate.
Defined.

Lemma handle_exit_other_process_witness :
  ((subprocess <$> extension_procs Demo.restarted !! Demo.ext) = Some 3%positive
   /\ Subprocess.get_if_signaled (os Sample.w_old_exited 1%positive) = false)
  /\ handle_exit Demo.platform Sample.w_old_exited 1%positive Demo.ext Demo.restarted
     = (Ok tt, Demo.restarted).
Proof.
  split; [split; vm_compute; reflexivity|].
  apply (handle_exit_other_process Demo.platform Sample.w_old_exited 1%positive Demo.ext
           (mk_proc Demo.ext 3%positive 101%float (DataInputStream_new 4%positive)
              (Py.deque_new 1))
           Demo.restarted);
    [vm_compute; reflexivity | discriminate | vm_compute; reflexivity].
Defined.

(** * Properties of the preferences *)

Lemma prefs_bind_Return {A B} (r : Prefs.result A) (k : A -> Prefs.result B) (b : B) :
  Prefs.bind r k = Prefs.Return b ->
  exists a, r = Prefs.Return a /\ k a = Prefs.Return b.
Proof.
  destruct r as [a|e]; cbn; [|discriminate]. intros H. exists a. split; [reflexivity | exact H].
Qed.

Lemma getitem_Return (p : Prefs.decl) (key : string) (v : Prefs.PyVal) :
  Prefs.getitem p key = Prefs.Return v <-> p !! key = Some v.
Proof.
  unfold Prefs.getitem. destruct (p !! key); split; intros H; congruence.
Qed.

Section PreferencesProperties.

Variable kv : KeyValueJsonDb.

Lemma item_of_Return (store : DB kv) (type : option string) (p : Prefs.decl)
  (o : option Item.t) :
  item_of kv store type p = Prefs.Return o ->
  match o with
  | Some i => kept type p = true /\ describes kv store p i
  | None => kept type p = false
  end.
Proof.
  unfold item_of, kept. intros H.
  apply prefs_bind_Return in H as (skip & Hskip & H).
  destruct (Py.truthy_opt type) eqn:Htype; cbn [negb orb].
  - apply prefs_bind_Return in Hskip as (ty & Hty & Hskip).
    injection Hskip as <-. apply getitem_Return in Hty. rewrite Hty.
    destruct (Prefs.eq_str (default EmptyString type) ty); cbn [negb] in H.
    + apply prefs_bind_Return in H as (ty0 & Hty0 & H).
      apply prefs_bind_Return in H as (fallback & Hfb & H).
      apply prefs_bind_Return in H as (id & Hid & H).
      apply prefs_bind_Return in H as (ty1 & Hty1 & H).
      apply prefs_bind_Return in H as (id1 & Hid1 & H).
      apply prefs_bind_Return in H as (found & Hfound & H).
      injection H as <-. apply getitem_Return in Hty0, Hid, Hty1, Hid1.
      assert (ty0 = ty) by congruence. assert (ty1 = ty) by congruence.
      assert (id1 = id) by congruence. subst.
      split; [reflexivity|]. unfold describes, Prefs.get_or, Prefs.or_else. cbn.
      repeat split; try assumption; eauto.
    + injection H as <-. reflexivity.
  - injection Hskip as <-.
    apply prefs_bind_Return in H as (ty0 & Hty0 & H).
    apply prefs_bind_Return in H as (fallback & Hfb & H).
    apply prefs_bind_Return in H as (id & Hid & H).
    apply prefs_bind_Return in H as (ty1 & Hty1 & H).
    apply prefs_bind_Return in H as (id1 & Hid1 & H).
    apply prefs_bind_Return in H as (found & Hfound & H).
    injection H as <-. apply getitem_Return in Hty0, Hid, Hty1, Hid1.
    assert (ty1 = ty0) by congruence. assert (id1 = id) by congruence. subst.
    split; [reflexivity|]. unfold describes, Prefs.get_or, Prefs.or_else. cbn.
    repeat split; try assumption; eauto.
Qed.

Lemma open_db_preferences (self : ExtensionPreferences kv) :
  preferences kv (_open_db kv self) = preferences kv self.
Proof. unfold _open_db. destruct (_db_is_open kv self); reflexivity. Qed.

Lemma items_of_describes (store : DB kv) (type : option string) (ps : list Prefs.decl)
  (items : list Item.t) :
  items_of kv store type ps = Prefs.Return items ->
  Forall2 (describes kv store) (List.filter (kept type) ps) items.
Proof.
  revert items. induction ps as [|p ps IH]; intros items H.
  - injection H as <-. constructor.
  - cbn [items_of] in H.
    apply prefs_bind_Return in H as (o & Ho & H).
    apply prefs_bind_Return in H as (rest & Hrest & H). injection H as <-.
    apply item_of_Return in Ho. cbn [List.filter].
    destruct o as [i|].
    + destruct Ho as [Hkept Hdesc]. rewrite Hkept.
      constructor; [exact Hdesc | exact (IH rest Hrest)].
    + rewrite Ho. exact (IH rest Hrest).
Qed.

(** [get_items] returns, in the order of the manifest, one item for each
    declaration it keeps: all of them without a filter (or with the empty
    string as filter), those of the given type otherwise.  Each item carries
    the declared id and type, the declared or default name, description,
    bounds, options and icon; its default value is the declared one or else 0
    for a number, [False] for a checkbox and the empty string for any other
    type; its value is the stored value when that is true in a condition and
    the default value otherwise, so a stored empty string, 0 or [False] reads
    back as the default. *)
Theorem get_items_describes (type : option string) (self : ExtensionPreferences kv)
  (items : list Item.t) :
  fst (get_items kv type self) = Prefs.Return items ->
  Forall2 (describes kv (db kv (snd (get_items kv type self))))
    (List.filter (kept type) (preferences kv self)) items.
Proof.
  unfold get_items. cbn [fst snd]. rewrite open_db_preferences.
  apply items_of_describes.
Qed.

Lemma item_of_unfiltered (store : DB kv) (p : Prefs.decl) (o : option Item.t) :
  item_of kv store None p = Prefs.Return o -> exists i, o = Some i.
Proof.
  intros H. apply item_of_Return in H. destruct o as [i|]; [eauto | discriminate H].
Qed.

Lemma item_of_filtered (store : DB kv) (type : option string) (p : Prefs.decl)
  (i : Item.t) :
  item_of kv store None p = Prefs.Return (Some i) ->
  item_of kv store type p
  = Prefs.Return (if passes type i then Some i else None).
Proof.
  intros H. pose proof (item_of_Return store None p (Some i) H) as [_ Hdesc].
  destruct Hdesc as (_ & Hty & _).
  unfold passes. unfold item_of in *. cbn [Py.truthy_opt Prefs.bind] in H.
  destruct (Py.truthy_opt type); cbn [negb orb Prefs.bind]; [|exact H].
  unfold Prefs.getitem at 1. rewrite Hty. cbn [Prefs.bind].
  destruct (Prefs.eq_str (default EmptyString type) (Item.type i)); cbn [negb];
    [exact H | reflexivity].
Qed.

(** Filtering by type is the same as filtering the full list: whenever the
    unfiltered call returns, the call with a type returns exactly the items
    of that type, in the same order. *)
Theorem get_items_filters_all (type : option string) (self : ExtensionPreferences kv)
  (items : list Item.t) :
  fst (get_items kv None self) = Prefs.Return items ->
  fst (get_items kv type self) = Prefs.Return (List.filter (passes type) items)
  /\ snd (get_items kv type self) = snd (get_items kv None self).
Proof.
  unfold get_items. cbn [fst snd]. intros H. split; [|reflexivity].
  revert items H. generalize (db kv (_open_db kv self)) as store. intros store.
  induction (preferences kv (_open_db kv self)) as [|p ps IH]; intros items H.
  - injection H as <-. reflexivity.
  - cbn [items_of] in *.
    apply prefs_bind_Return in H as (o & Ho & H).
    apply prefs_bind_Return in H as (rest & Hrest & H). injection H as <-.
    destruct (item_of_unfiltered store p o Ho) as [i ->].
    rewrite (item_of_filtered store type p i Ho), (IH rest Hrest).
    cbn [Prefs.bind List.filter]. destruct (passes type i); reflexivity.
Qed.

(** ** [get] and [get_dict] *)

Lemma key_eq_str (id : string) (k : Prefs.PyVal) :
  Prefs.key_eq k (Prefs.PStr id) = Prefs.eq_str id k.
Proof.
  destruct k; cbn; try reflexivity. apply String.eqb_sym.
Qed.

Lemma str_key_eq (id : string) (k : Prefs.PyVal) :
  Prefs.key_eq (Prefs.PStr id) k = Prefs.eq_str id k.
Proof. destruct k; reflexivity. Qed.

Lemma eq_str_true (id : string) (k : Prefs.PyVal) :
  Prefs.eq_str id k = true -> k = Prefs.PStr id.
Proof.
  destruct k; cbn; try discriminate. intros H. apply String.eqb_eq in H. congruence.
Qed.

Lemma lookup_key_assign (id : string) (k v : Prefs.PyVal)
  (d : list (Prefs.PyVal * Prefs.PyVal)) :
  lookup_key (Prefs.PStr id) (assign k v d)
  = if Prefs.eq_str id k then Some v else lookup_key (Prefs.PStr id) d.
Proof.
  induction d as [|[k' v'] d IH]; cbn [assign lookup_key].
  - rewrite key_eq_str. reflexivity.
  - destruct (Prefs.eq_str id k) eqn:Hidk.
    + apply eq_str_true in Hidk. subst k. rewrite key_eq_str.
      destruct (Prefs.eq_str id k') eqn:Hk'; cbn [lookup_key]; rewrite key_eq_str, Hk';
        [reflexivity|].
      rewrite IH. reflexivity.
    + destruct (Prefs.key_eq k' k) eqn:Hk; cbn [lookup_key]; rewrite key_eq_str.
      * destruct (Prefs.eq_str id k') eqn:Hk'; [|reflexivity].
        apply eq_str_true in Hk'. subst k'. rewrite str_key_eq in Hk. congruence.
      * rewrite IH. reflexivity.
Qed.

Lemma dict_of_lookup (id : string) (items : list Item.t)
  (acc d : list (Prefs.PyVal * Prefs.PyVal)) :
  dict_of items acc = Prefs.Return d ->
  lookup_key (Prefs.PStr id) d
  = match first_with_id id (rev items) with
    | Some i => Some (Item.value i)
    | None => lookup_key (Prefs.PStr id) acc
    end.
Proof.
  revert acc. induction items as [|i items IH]; intros acc H.
  - injection H as <-. reflexivity.
  - cbn [dict_of] in H. destruct (Prefs.hashable (Item.id i)); [|discriminate H].
    rewrite (IH _ H), lookup_key_assign. cbn [rev].
    assert (Happ : forall a b,
               first_with_id id (a ++ b)%list
               = match first_with_id id a with
                 | Some j => Some j
                 | None => first_with_id id b
                 end).
    { intros a b. induction a as [|j a IHa]; [reflexivity|]. cbn.
      destruct (Prefs.eq_str id (Item.id j)); [reflexivity | exact IHa]. }
    rewrite Happ. destruct (first_with_id id (rev items)); [reflexivity|].
    cbn. destruct (Prefs.eq_str id (Item.id i)); reflexivity.
Qed.

(** [get(id)] answers the first item declared under the id and [get_dict()]
    holds under the id the value of the last one; the two agree when a single
    declaration carries the id.  Both leave the instance as [get_items]
    does. *)
Theorem get_first_get_dict_last (id : string) (self : ExtensionPreferences kv)
  (items : list Item.t) (d : list (Prefs.PyVal * Prefs.PyVal)) :
  fst (get_items kv None self) = Prefs.Return items ->
  fst (get_dict kv self) = Prefs.Return d ->
  fst (get kv id self) = Prefs.Return (first_with_id id items)
  /\ lookup_key (Prefs.PStr id) d = Item.value <$> first_with_id id (rev items)
  /\ (length (List.filter (fun i => Prefs.eq_str id (Item.id i)) items) = 1%nat ->
      lookup_key (Prefs.PStr id) d = Item.value <$> first_with_id id items)
  /\ snd (get kv id self) = snd (get_items kv None self)
  /\ snd (get_dict kv self) = snd (get_items kv None self).
Proof.
  unfold get, get_dict. destruct (get_items kv None self) as [r self'] eqn:Hg.
  cbn [fst snd]. intros -> Hd. cbn [Prefs.bind] in *.
  assert (Hlast : lookup_key (Prefs.PStr id) d = Item.value <$> first_with_id id (rev items)).
  { rewrite (dict_of_lookup id items [] d Hd).
    destruct (first_with_id id (rev items)); reflexivity. }
  split; [reflexivity|]. split; [exact Hlast|]. split; [|split; reflexivity].
  intros Hone. rewrite Hlast. f_equal. clear -Hone.
  assert (Hf : forall l, first_with_id id l
                         = head (List.filter (fun i => Prefs.eq_str id (Item.id i)) l)).
  { induction l as [|j l IHl]; [reflexivity|]. cbn.
    destruct (Prefs.eq_str id (Item.id j)); [reflexivity | exact IHl]. }
  rewrite !Hf, filter_rev.
  destruct (List.filter _ items) as [|j [|j' l]]; try discriminate Hone. reflexivity.
Qed.

(** ** The active keywords *)

Lemma Forall2_described {A B} (R : A -> B -> Prop) (l : list A) (k : list B) :
  Forall2 R l k -> forall y, y ∈ k -> exists x, x ∈ l /\ R x y.
Proof.
  induction 1 as [|x y l k Hxy _ IH]; intros z Hz.
  - destruct (not_elem_of_nil _ Hz).
  - apply elem_of_cons in Hz as [->|Hz].
    + exists x. split; [apply elem_of_cons; left; reflexivity | exact Hxy].
    + destruct (IH z Hz) as (x' & Hx' & HR). exists x'.
      split; [apply elem_of_cons; right; exact Hx' | exact HR].
Qed.

(** Every keyword [get_active_keywords] returns is true in a condition (never
    empty) and is the value of an item built from a declaration of type
    [keyword]: the stored value, or the default when nothing true is
    stored. *)
Theorem get_active_keywords_nonempty (self : ExtensionPreferences kv)
  (keywords : list Prefs.PyVal) :
  fst (get_active_keywords kv self) = Prefs.Return keywords ->
  Forall
    (fun word =>
       Prefs.truthy word = true
       /\ exists p i,
            p ∈ preferences kv self
            /\ p !! "type" = Some (Prefs.PStr "keyword")
            /\ describes kv (db kv (snd (get_active_keywords kv self))) p i
            /\ Item.value i = word)
    keywords.
Proof.
  unfold get_active_keywords, get_items. cbn [fst snd]. intros H.
  apply prefs_bind_Return in H as (items & Hitems & H). injection H as <-.
  pose proof (items_of_describes _ _ _ _ Hitems) as Hdesc.
  rewrite open_db_preferences in Hdesc.
  apply Forall_forall. intros word Hword.
  apply list_elem_of_In, in_map_iff in Hword as (i & <- & Hi).
  apply List.filter_In in Hi as [Hi Htrue]. apply list_elem_of_In in Hi.
  split; [exact Htrue|].
  destruct (Forall2_described _ _ _ Hdesc i Hi) as (p & Hp & Hpi).
  apply list_elem_of_In, List.filter_In in Hp as [Hp Hkept]. apply list_elem_of_In in Hp.
  exists p, i. split; [exact Hp|]. split; [|split; [exact Hpi | reflexivity]].
  unfold kept in Hkept. cbn in Hkept.
  destruct (p !! "type") as [ty|]; [|discriminate Hkept].
  apply eq_str_true in Hkept. congruence.
Qed.

(** ** Incomplete declarations *)

Lemma items_of_app (store : DB kv) (type : option string) (a b : list Prefs.decl) :
  items_of kv store type (a ++ b)%list
  = Prefs.bind (items_of kv store type a) (fun x =>
    Prefs.bind (items_of kv store type b) (fun y =>
    Prefs.Return (x ++ y)%list)).
Proof.
  induction a as [|p a IH]; cbn [items_of app Prefs.bind].
  - destruct (items_of kv store type b); reflexivity.
  - destruct (item_of kv store type p) as [o|e]; cbn [Prefs.bind]; [|reflexivity].
    rewrite IH. destruct (items_of kv store type a) as [x|e]; cbn [Prefs.bind];
      [|reflexivity].
    destruct (items_of kv store type b) as [y|e]; cbn [Prefs.bind]; [|reflexivity].
    destruct o; reflexivity.
Qed.

Lemma item_of_skipped (store : DB kv) (type : option string) (p : Prefs.decl)
  (ty : Prefs.PyVal) :
  p !! "type" = Some ty ->
  kept type p = false ->
  item_of kv store type p = Prefs.Return None.
Proof.
  intros Hty Hkept. unfold kept in Hkept. rewrite Hty in Hkept.
  apply orb_false_iff in Hkept as [Htype Hneq]. apply negb_false_iff in Htype.
  unfold item_of. rewrite Htype. unfold Prefs.getitem at 1. rewrite Hty.
  cbn [Prefs.bind]. rewrite Hneq. reflexivity.
Qed.

(** The first incomplete declaration decides how [get_items] ends, the
    earlier ones being fine.  Without a [type] key it raises [KeyError] for
    that key under every filter.  With a type that the filter does not keep,
    the declaration is skipped unseen, whatever else it lacks.  With a type
    that is kept, a list or dict as type raises [TypeError] with the message
    [unhashable type: 'list'] (or ['dict']) and a missing [id] raises
    [KeyError] for [id]. *)
Theorem get_items_first_incomplete (type : option string)
  (self : ExtensionPreferences kv) (before after : list Prefs.decl) (p : Prefs.decl)
  (earlier : list Item.t) :
  preferences kv self = (before ++ p :: after)%list ->
  items_of kv (db kv (_open_db kv self)) type before = Prefs.Return earlier ->
  match p !! "type" with
  | None => fst (get_items kv type self) = Prefs.Raise (Prefs.KeyError "type")
  | Some ty =>
      if negb (kept type p)
      then fst (get_items kv type self)
           = Prefs.bind (items_of kv (db kv (_open_db kv self)) type after)
               (fun later => Prefs.Return (earlier ++ later)%list)
      else if negb (Prefs.hashable ty)
           then fst (get_items kv type self)
                = Prefs.Raise
                    (Prefs.TypeError
                       ("unhashable type: "
                          ++ String squote (Prefs.type_name ty ++ String squote "")))
           else p !! "id" = None ->
                fst (get_items kv type self) = Prefs.Raise (Prefs.KeyError "id")
  end.
Proof.
  intros Hps Hbefore. unfold get_items. cbn [fst].
  rewrite open_db_preferences, Hps, items_of_app, Hbefore. cbn [Prefs.bind items_of].
  set (store := db kv (_open_db kv self)).
  destruct (p !! "type") as [ty|] eqn:Hty.
  - destruct (kept type p) eqn:Hkept; cbn [negb].
    + assert (Hitem :
                item_of kv store type p
                = Prefs.bind (Prefs.default_fallback ty) (fun default_fallback =>
                  Prefs.bind (Prefs.getitem p "id") (fun id =>
                  Prefs.bind (db_find kv store id) (fun found =>
                  Prefs.Return
                    (Some
                       {| Item.id := id;
                          Item.type := ty;
                          Item.name := Prefs.get_or p "name" (Prefs.PStr "");
                          Item.description :=
                            Prefs.get_or p "description" (Prefs.PStr "");
                          Item.min := Prefs.get_or p "min" (Prefs.PInt 0);
                          Item.max := Prefs.get_or p "max" Prefs.PNone;
                          Item.options := Prefs.get_or p "options" (Prefs.PList []);
                          Item.default_value :=
                            Prefs.get_or p "default_value" default_fallback;
                          Item.value :=
                            Prefs.or_else found
                              (Prefs.get_or p "default_value" default_fallback);
                          Item.icon := Prefs.get_or p "icon" Prefs.PNone |}))))).
      { unfold kept in Hkept. rewrite Hty in Hkept.
        unfold item_of, Prefs.getitem. rewrite Hty. cbn [Prefs.bind].
        destruct (Py.truthy_opt type); cbn [negb orb] in Hkept;
          [rewrite Hkept|]; cbn [negb Prefs.bind];
          destruct (Prefs.default_fallback ty); cbn [Prefs.bind]; try reflexivity;
          destruct (p !! "id"); reflexivity. }
      rewrite Hitem. unfold Prefs.default_fallback.
      destruct (Prefs.hashable ty); cbn [negb]; [|reflexivity].
      intros Hid. unfold Prefs.getitem. rewrite Hid.
      destruct (Prefs.eq_str "number" ty); [|destruct (Prefs.eq_str "checkbox" ty)];
        reflexivity.
    + rewrite (item_of_skipped store type p ty Hty Hkept). cbn [Prefs.bind].
      destruct (items_of kv store type after); reflexivity.
  - unfold item_of.
    assert (Hnone : Prefs.getitem p "type" = Prefs.Raise (Prefs.KeyError "type"))
      by (unfold Prefs.getitem; rewrite Hty; reflexivity).
    rewrite Hnone. destruct (Py.truthy_opt type); reflexivity.
Qed.

(** ** Opening the database *)

(** Every read ([get_items], [get_dict], [get], [get_active_keywords]) leaves
    the instance opened, with the database opened exactly when it was not
    open before, and a second read changes nothing.  [set] puts and commits
    without opening: on a fresh instance the value is written to a database
    that has never been opened, and the first read opens what [set] left. *)
Theorem database_opened_by_first_read (type type' : option string) (id value : string)
  (self : ExtensionPreferences kv) :
  let opened := snd (get_items kv type self) in
  _db_is_open kv opened = true
  /\ preferences kv opened = preferences kv self
  /\ db kv opened = (if _db_is_open kv self then db kv self else db_open kv (db kv self))
  /\ snd (get_items kv type' opened) = opened
  /\ snd (get_dict kv self) = opened
  /\ snd (get kv id self) = opened
  /\ snd (get_active_keywords kv self) = opened
  /\ _db_is_open kv (set kv id value self) = _db_is_open kv self
  /\ (_db_is_open kv self = false ->
      db kv (snd (get_items kv type (set kv id value self)))
      = db_open kv (db_commit kv (db_put kv (db kv self) id value))).
Proof.
  cbn zeta. unfold get_dict, get, get_active_keywords, get_items, _open_db, set.
  cbn [fst snd _db_is_open db preferences].
  destruct (_db_is_open kv self) eqn:Hopen; cbn [_db_is_open db preferences];
    rewrite ?Hopen; repeat split; try reflexivity; try discriminate.
Qed.

End PreferencesProperties.

(** ** Examples for the preferences *)

Lemma get_items_describes_witness :
  exists items,
    fst (get_items PrefSample.memory_db None PrefSample.instance) = Prefs.Return items
    /\ map Item.value items
       = [Prefs.PStr "timer"; Prefs.PInt 0; Prefs.PBool true]
    /\ Forall2
         (describes PrefSample.memory_db
            (db PrefSample.memory_db
               (snd (get_items PrefSample.memory_db None PrefSample.instance))))
         (List.filter (kept None) (preferences PrefSample.memory_db PrefSample.instance))
         items.
Proof.
  eexists. split; [vm_compute; reflexivity|]. split; [vm_compute; reflexivity|].
  apply (get_items_describes PrefSample.memory_db None PrefSample.instance).
  vm_compute; reflexivity.
Defined.

Lemma get_items_filters_all_witness :
  exists items,
    fst (get_items PrefSample.memory_db None PrefSample.instance) = Prefs.Return items
    /\ fst (get_items PrefSample.memory_db (Some "number") PrefSample.instance)
       = Prefs.Return (List.filter (passes (Some "number")) items)
    /\ length (List.filter (passes (Some "number")) items) = 1%nat.
Proof.
  eexists. split; [vm_compute; reflexivity|]. split; [|vm_compute; reflexivity].
  apply (get_items_filters_all PrefSample.memory_db (Some "number") PrefSample.instance).
  vm_compute; reflexivity.
Defined.

Lemma get_first_get_dict_last_witness :
  exists items d,
    fst (get_items PrefSample.memory_db None PrefSample.instance) = Prefs.Return items
    /\ fst (get_dict PrefSample.memory_db PrefSample.instance) = Prefs.Return d
    /\ lookup_key (Prefs.PStr "notify") d = Some (Prefs.PBool true)
    /\ lookup_key (Prefs.PStr "notify") d
       = Item.value <$> first_with_id "notify" (rev items).
Proof.
  eexists _, _. split; [vm_compute; reflexivity|].
  split; [vm_compute; reflexivity|]. split; [vm_compute; reflexivity|].
  refine (proj1 (proj2 (get_first_get_dict_last PrefSample.memory_db "notify"
                          PrefSample.instance _ _ _ _)));
    vm_compute; reflexivity.
Defined.

Lemma get_active_keywords_nonempty_witness :
  fst (get_active_keywords PrefSample.memory_db PrefSample.instance)
  = Prefs.Return [Prefs.PStr "timer"]
  /\ Forall (fun word => Prefs.truthy word = true) [Prefs.PStr "timer"].
Proof.
  assert (H : fst (get_active_keywords PrefSample.memory_db PrefSample.instance)
              = Prefs.Return [Prefs.PStr "timer"]) by (vm_compute; reflexivity).
  split; [exact H|].
  pose proof (get_active_keywords_nonempty PrefSample.memory_db PrefSample.instance
                [Prefs.PStr "timer"] H) as Hall.
  exact (Forall_impl _ _ _ Hall (fun word Hword => proj1 Hword)).
Defined.

Lemma get_items_first_incomplete_witness :
  (preferences PrefSample.memory_db PrefSample.incomplete
   = ([PrefSample.p_kw] ++ PrefSample.p_no_id :: [PrefSample.p_limit])%list
   /\ PrefSample.p_no_id !! "id" = None
   /\ preferences PrefSample.memory_db PrefSample.mistyped
      = ([PrefSample.p_kw] ++ PrefSample.p_list_type :: [PrefSample.p_limit])%list
   /\ PrefSample.p_list_type !! "type" = Some (Prefs.PList [Prefs.PStr "select"]))
  /\ fst (get_items PrefSample.memory_db None PrefSample.incomplete)
     = Prefs.Raise (Prefs.KeyError "id")
  /\ fst (get_items PrefSample.memory_db None PrefSample.mistyped)
     = Prefs.Raise (Prefs.TypeError "unhashable type: 'list'")
  /\ fst (get_items PrefSample.memory_db (Some "keyword") PrefSample.mistyped)
     = Prefs.bind
         (items_of PrefSample.memory_db
            (db PrefSample.memory_db (_open_db PrefSample.memory_db PrefSample.mistyped))
            (Some "keyword") [PrefSample.p_limit])
         (fun later =>
            Prefs.Return
              ([{| Item.id := Prefs.PStr "kw";
                   Item.type := Prefs.PStr "keyword";
                   Item.name := Prefs.PStr "Keyword";
                   Item.description := Prefs.PStr "";
                   Item.min := Prefs.PInt 0;
                   Item.max := Prefs.PNone;
                   Item.options := Prefs.PList [];
                   Item.default_value := Prefs.PStr "tm";
                   Item.value := Prefs.PStr "timer";
                   Item.icon := Prefs.PNone |}] ++ later)%list).
Proof.
  assert (Hps : preferences PrefSample.memory_db PrefSample.incomplete
                = ([PrefSample.p_kw] ++ PrefSample.p_no_id :: [PrefSample.p_limit])%list)
    by reflexivity.
  assert (Hid : PrefSample.p_no_id !! "id" = None) by (vm_compute; reflexivity).
  assert (Hps' : preferences PrefSample.memory_db PrefSample.mistyped
                 = ([PrefSample.p_kw] ++ PrefSample.p_list_type :: [PrefSample.p_limit])%list)
    by reflexivity.
  assert (Hty : PrefSample.p_list_type !! "type" = Some (Prefs.PList [Prefs.PStr "select"]))
    by (vm_compute; reflexivity).
  split; [repeat split; assumption|].
  eassert (Hbefore :
             items_of PrefSample.memory_db
               (db PrefSample.memory_db
                  (_open_db PrefSample.memory_db PrefSample.incomplete))
               None [PrefSample.p_kw] = Prefs.Return _)
    by (vm_compute; reflexivity).
  eassert (Hbefore' :
             items_of PrefSample.memory_db
               (db PrefSample.memory_db
                  (_open_db PrefSample.memory_db PrefSample.mistyped))
               None [PrefSample.p_kw] = Prefs.Return _)
    by (vm_compute; reflexivity).
  eassert (Hkeyword :
             items_of PrefSample.memory_db
               (db PrefSample.memory_db
                  (_open_db PrefSample.memory_db PrefSample.mistyped))
               (Some "keyword") [PrefSample.p_kw] = Prefs.Return _)
    by (vm_compute; reflexivity).
  split; [|split].
  - pose proof (get_items_first_incomplete PrefSample.memory_db None PrefSample.incomplete
                  [PrefSample.p_kw] [PrefSample.p_limit] PrefSample.p_no_id _ Hps Hbefore)
      as H.
    change (PrefSample.p_no_id !! "id" = None ->
            fst (get_items PrefSample.memory_db None PrefSample.incomplete)
            = Prefs.Raise (Prefs.KeyError "id")) in H.
    exact (H Hid).
  - exact (get_items_first_incomplete PrefSample.memory_db None PrefSample.mistyped
             [PrefSample.p_kw] [PrefSample.p_limit] PrefSample.p_list_type _ Hps' Hbefore').
  - exact (get_items_first_incomplete PrefSample.memory_db (Some "keyword")
             PrefSample.mistyped
             [PrefSample.p_kw] [PrefSample.p_limit] PrefSample.p_list_type _ Hps' Hkeyword).
Defined.

(** * The exit notification of the registered child *)

(** When the notification is about the subprocess the table holds for the
    extension, however the child ended and whatever its last line was, the
    handler either returns with the extension no longer running, and every
    other record still in the table, or raises and leaves the state exactly
    as it was. *)
Theorem handle_exit_unregisters_or_raises (pf : Platform) (w : World)
  (subproc : obj_id) (ext : string) (proc : ExtensionProc) (st : State) :
  extension_procs st !! ext = Some proc ->
  subprocess proc = subproc ->
  (outcome (handle_exit pf w subproc ext) st = Ok tt
   /\ extension_procs (exec (handle_exit pf w subproc ext) st)
      = delete ext (extension_procs st))
  \/ (exists e, handle_exit pf w subproc ext st = (Raised e, st)).
Proof.
  intros Hproc Hid. unfold outcome, exec, handle_exit. step_monad. rewrite Hproc.
  change (bool_decide (is_Some (Some proc))) with true. rewrite andb_true_r.
  destruct (Subprocess.get_if_signaled (os w subproc)); cbn beta iota.
  - left. rewrite set_extension_error_runs, (pop_proc_present ext proc) by exact Hproc.
    split; reflexivity.
  - rewrite Hproc, Hid, Pos.eqb_refl. cbn [negb].
    destruct (PrimFloat.ltb _ instant_threshold).
    + destruct (Py.contains _ _).
      * destruct (Py.split squote _ !! 1%nat) as [package_name|];
          [|right; eexists; reflexivity].
        destruct (String.eqb package_name "ulauncher");
          [|destruct (Py.truthy package_name)]; left;
          rewrite ?set_extension_error_runs, (pop_proc_present ext proc) by exact Hproc;
          split; reflexivity.
      * left. rewrite set_extension_error_runs, (pop_proc_present ext proc) by exact Hproc.
        split; reflexivity.
    + left. rewrite set_extension_error_runs, (pop_proc_present ext proc) by exact Hproc.
      split; reflexivity.
Qed.

Lemma handle_exit_unregisters_or_raises_witness :
  extension_procs Demo.started !! Demo.ext = Some Demo.first_proc
  /\ ((outcome (handle_exit Demo.platform Demo.w_exit_late 1%positive Demo.ext) Demo.started
       = Ok tt
       /\ extension_procs
            (exec (handle_exit Demo.platform Demo.w_exit_late 1%positive Demo.ext)
               Demo.started)
          = delete Demo.ext (extension_procs Demo.started))
      \/ exists e,
           handle_exit Demo.platform Demo.w_exit_late 1%positive Demo.ext Demo.started
           = (Raised e, Demo.started)).
Proof.
  assert (H : extension_procs Demo.started !! Demo.ext = Some Demo.first_proc)
    by (vm_compute; reflexivity).
  split; [exact H|].
  exact (handle_exit_unregisters_or_raises Demo.platform Demo.w_exit_late 1%positive
           Demo.ext Demo.first_proc Demo.started H eq_refl).
Defined.
